(** * Enterprise Integration Hub: the dashboard's in-memory store

    A shallow embedding of [src/dashboard.py] (class [IntegrationDashboard]
    and the simulation loop of [main]) and the properties of its bounded
    event log, its workflow log, its metrics registry and its HTTP
    handlers; and of [src/main.py] (class [EnterpriseIntegrationHub]): the
    initialization of the integrations and the email workflow.

    Conventions of the embedding:
    - a Python [float] is a rational ([Q]); the properties below only use
      order comparisons and exact small constants;
    - a [datetime] is a POSIX time stamp in seconds ([Q]);
    - [datetime.now()] and [random.random()] are inputs of the operation
      that reads them;
    - the answer of an HTTP request and the environment of the process
      are inputs too: a network is a function from the request sent to a
      response or to the exception raised;
    - a Python [dict] is an association list in insertion order, as
      Python iterates it;
    - a handler is a computation in a state-and-exception monad: a raised
      exception keeps the mutations made before it, as in Python. *)

From Stdlib Require Import List String Ascii ZArith QArith Bool Arith Lia.
From Stdlib Require Import Lqa.
Import ListNotations.
Open Scope string_scope.
Open Scope nat_scope.
#[local] Set Warnings "-register-all".

(** ** Python values *)

(** What [json.loads] produces and [json.dumps] accepts. *)
Inductive JSON : Type :=
| JNull
| JBool (b : bool)
| JInt (z : Z)
| JFloat (q : Q)
| JString (s : string)
| JArray (l : list JSON)
| JObject (d : list (string * JSON)).

Definition datetime : Type := Q.

(** [bool(v)]: the truth value Python's [or] tests. *)
Definition truthy (v : JSON) : bool :=
  match v with
  | JNull => false
  | JBool b => b
  | JInt z => negb (Z.eqb z 0)
  | JFloat q => negb (Qeq_bool q 0)
  | JString s => negb (String.eqb s "")
  | JArray l => match l with [] => false | _ :: _ => true end
  | JObject d => match d with [] => false | _ :: _ => true end
  end.

(** [a or b] *)
Definition py_or (a b : JSON) : JSON := if truthy a then a else b.

(** [type(v).__name__], as it appears in an [AttributeError]. *)
Definition type_name (v : JSON) : string :=
  match v with
  | JNull => "NoneType"
  | JBool _ => "bool"
  | JInt _ => "int"
  | JFloat _ => "float"
  | JString _ => "str"
  | JArray _ => "list"
  | JObject _ => "dict"
  end.

Definition is_dict (v : JSON) : bool :=
  match v with JObject _ => true | _ => false end.

(** [l[-n:]] for a positive [n]: the last [n] items, all of [l] when it is
    shorter. *)
Definition last_items {A : Type} (n : nat) (l : list A) : list A :=
  skipn (List.length l - n) l.

(** [x < y] on floats. *)
Definition Qltb (x y : Q) : bool :=
  match Qcompare x y with Lt => true | _ => false end.

(** [max(a, b)]: the first of the largest, so [b] only when [b > a]. *)
Definition py_max (a b : Q) : Q := if Qltb a b then b else a.

(** [min(a, b)]: the first of the smallest, so [b] only when [b < a]. *)
Definition py_min (a b : Q) : Q := if Qltb b a then b else a.

(** [random.uniform(a, b)] is [a + (b - a) * random()]; [u] is the value
    [random()] returned. *)
Definition uniform (a b u : Q) : Q := (a + (b - a) * u)%Q.

(** ** Dictionaries with string keys, in insertion order *)

Module PyDict.
Section Ops.
Context {V : Type}.

Definition t : Type := list (string * V).

Definition empty : t := [].

(** [d.get(k)] *)
Fixpoint get (k : string) (d : t) : option V :=
  match d with
  | [] => None
  | (k', v) :: rest => if String.eqb k k' then Some v else get k rest
  end.

(** [d[k] = v]: in place when the key is there, at the end otherwise. *)
Fixpoint set (k : string) (v : V) (d : t) : t :=
  match d with
  | [] => [(k, v)]
  | (k', v') :: rest =>
      if String.eqb k k' then (k', v) :: rest else (k', v') :: set k v rest
  end.

(** [del d[k]] when the key is there. *)
Fixpoint remove (k : string) (d : t) : t :=
  match d with
  | [] => []
  | (k', v') :: rest =>
      if String.eqb k k' then rest else (k', v') :: remove k rest
  end.

Definition keys (d : t) : list string := map fst d.
Definition values (d : t) : list V := map snd d.
Definition len (d : t) : nat := List.length d.

(** A Python dict holds a key once. *)
Definition wf (d : t) : Prop := NoDup (keys d).
End Ops.
Arguments t : clear implicits.
End PyDict.

(** [d.get(k, default)] *)
Definition get_default (k : string) (default : JSON)
    (d : PyDict.t JSON) : JSON :=
  match PyDict.get k d with Some v => v | None => default end.

(** ** The data classes *)

Module IntegrationMetric.
Record t : Type := make {
  service : string;
  status : string;
  response_time : Q;
  success_rate : Q;
  last_success : datetime;
  last_error : datetime;
  total_requests : Z;
  error_count : Z;
  uptime_percentage : Q
}.
End IntegrationMetric.

Module WorkflowExecution.
Record t : Type := make {
  workflow_id : string;
  workflow_name : string;
  status : string;
  start_time : datetime;
  end_time : datetime;
  duration : Q;
  input_data : PyDict.t JSON;
  output_data : PyDict.t JSON;
  error_message : string
}.
End WorkflowExecution.

(** The store of [IntegrationDashboard.__init__]; an event is the dict the
    code appends. *)
Record IntegrationDashboard : Type := {
  integration_metrics : PyDict.t IntegrationMetric.t;
  workflow_executions : list WorkflowExecution.t;
  system_events : list (PyDict.t JSON)
}.

(** The store as [__init__] leaves it. *)
Definition init : IntegrationDashboard :=
  {| integration_metrics := PyDict.empty;
     workflow_executions := [];
     system_events := [] |}.

Definition set_integration_metrics (m : PyDict.t IntegrationMetric.t)
    (self : IntegrationDashboard) : IntegrationDashboard :=
  {| integration_metrics := m;
     workflow_executions := workflow_executions self;
     system_events := system_events self |}.

Definition set_workflow_executions (w : list WorkflowExecution.t)
    (self : IntegrationDashboard) : IntegrationDashboard :=
  {| integration_metrics := integration_metrics self;
     workflow_executions := w;
     system_events := system_events self |}.

Definition set_system_events (e : list (PyDict.t JSON))
    (self : IntegrationDashboard) : IntegrationDashboard :=
  {| integration_metrics := integration_metrics self;
     workflow_executions := workflow_executions self;
     system_events := e |}.

(** ** Handlers: state and exceptions *)

Inductive result (A : Type) : Type :=
| Ok (a : A)
| Raise (msg : string).
Arguments Ok {A} a.
Arguments Raise {A} msg.

(** A computation on the store that returns or raises; the store it
    leaves is the one it reached. *)
Definition M (A : Type) : Type :=
  IntegrationDashboard -> result A * IntegrationDashboard.

Definition ret {A : Type} (a : A) : M A := fun self => (Ok a, self).

Definition raise {A : Type} (msg : string) : M A :=
  fun self => (Raise msg, self).

Definition bind {A B : Type} (m : M A) (k : A -> M B) : M B :=
  fun self =>
    match m self with
    | (Ok a, self') => k a self'
    | (Raise msg, self') => (Raise msg, self')
    end.

Definition lift {A : Type} (r : result A) : M A := fun self => (r, self).

Definition read {A : Type} (f : IntegrationDashboard -> A) : M A :=
  fun self => (Ok (f self), self).

Definition modify (f : IntegrationDashboard -> IntegrationDashboard)
    : M unit :=
  fun self => (Ok tt, f self).

(** [try: return body  except Exception as e: return handler(str(e))]:
    the handler runs on the store the body had reached. *)
Definition try_except {A : Type} (body : M A)
    (handler : string -> IntegrationDashboard -> A)
    : IntegrationDashboard -> A * IntegrationDashboard :=
  fun self =>
    match body self with
    | (Ok a, self') => (a, self')
    | (Raise msg, self') => (handler msg self', self')
    end.

Notation "x <- m ;; k" := (bind m (fun x => k))
  (at level 61, m at next level, right associativity).
Notation "m ;;; k" := (bind m (fun _ => k))
  (at level 61, right associativity).

(** [web.json_response(body, status=...)] *)
Record Response : Type := {
  resp_status : Z;
  resp_body : JSON
}.

Definition json_response (body : JSON) (status : Z) : Response :=
  {| resp_status := status; resp_body := body |}.

(** An incoming request: what [await request.json()] does with its body. *)
Record Request : Type := {
  request_json : result JSON
}.

(** [data.get(key, default)] on a parsed body: only a dict has [get]. *)
Definition call_get (data : JSON) (key : string) (default : JSON)
    : result JSON :=
  match data with
  | JObject d => Ok (get_default key default d)
  | _ => Raise ("'" ++ type_name data ++ "' object has no attribute 'get'")
  end.

(** ** The network and the process environment *)

(** A request as [aiohttp] is handed it. *)
Record HttpRequest : Type := {
  http_method : string;
  http_url : string;
  http_headers : PyDict.t JSON;
  http_payload : option JSON
}.

(** A response: its status, and what [await response.json()] does. *)
Record HttpResponse : Type := {
  http_status : Z;
  http_json : result JSON
}.

(** What [self.session.get] or [self.session.post] does with a request:
    a response, or the exception raised (also when there is no session).
    The requests one method sends differ in their URL or payload, so a
    function of the request is all a call can observe. *)
Definition Network : Type := HttpRequest -> result HttpResponse.

Definition session_get (url : string) (headers : PyDict.t JSON)
    : HttpRequest :=
  {| http_method := "GET"; http_url := url; http_headers := headers;
     http_payload := None |}.

Definition session_post (url : string) (json : JSON)
    (headers : PyDict.t JSON) : HttpRequest :=
  {| http_method := "POST"; http_url := url; http_headers := headers;
     http_payload := Some json |}.

(** For the statements: the JSON body of an answer that has the expected
    status, if the request was answered so. *)
Definition json_of_answer (expected : Z) (answer : result HttpResponse)
    : option JSON :=
  match answer with
  | Ok response =>
      if Z.eqb (http_status response) expected
      then match http_json response with
           | Ok body => Some body
           | Raise _ => None
           end
      else None
  | Raise _ => None
  end.

(** [os.environ]: [None] for a variable that is not set. *)
Definition Environ : Type := string -> option string.

(** [os.getenv(name, default)] *)
Definition getenv_default (environ : Environ) (name default : string)
    : string :=
  match environ name with Some v => v | None => default end.

(** An [Optional[str]] as a value, and its truth value. *)
Definition optional_str (v : option string) : JSON :=
  match v with Some s => JString s | None => JNull end.

Definition str_truthy (v : option string) : bool :=
  match v with Some s => negb (String.eqb s "") | None => false end.

(** [f"{v}"] for an [Optional[str]] *)
Definition format_optional (v : option string) : string :=
  match v with Some s => s | None => "None" end.

(** [len(v)]; [str_len] is [len] on a [str]. *)
Definition py_len (str_len : string -> nat) (v : JSON) : result nat :=
  match v with
  | JString s => Ok (str_len s)
  | JArray l => Ok (List.length l)
  | JObject d => Ok (List.length d)
  | _ => Raise ("object of type '" ++ type_name v ++ "' has no len()")
  end.

(** ** State and exceptions over any store *)

Section StateExn.
Context {S : Type}.

Definition SE (A : Type) : Type := S -> result A * S.

Definition se_ret {A : Type} (a : A) : SE A := fun s => (Ok a, s).

Definition se_raise {A : Type} (msg : string) : SE A :=
  fun s => (Raise msg, s).

Definition se_bind {A B : Type} (m : SE A) (k : A -> SE B) : SE B :=
  fun s =>
    match m s with
    | (Ok a, s') => k a s'
    | (Raise msg, s') => (Raise msg, s')
    end.

Definition se_lift {A : Type} (r : result A) : SE A := fun s => (r, s).

Definition se_get : SE S := fun s => (Ok s, s).

Definition se_modify (f : S -> S) : SE unit := fun s => (Ok tt, f s).

(** [try: body  except Exception as e: handler(str(e))]; the handler
    starts from the store the body had reached. *)
Definition se_try {A : Type} (body : SE A) (handler : string -> SE A)
    : SE A :=
  fun s =>
    match body s with
    | (Ok a, s') => (Ok a, s')
    | (Raise msg, s') => handler msg s'
    end.

End StateExn.
Arguments SE : clear implicits.

Notation "x <~ m ;; k" := (se_bind m (fun x => k))
  (at level 61, m at next level, right associativity).
Notation "m ;;~ k" := (se_bind m (fun _ => k))
  (at level 61, right associativity).

(** ** The hub of [main.py] *)

Module IntegrationStatus.
Record t : Type := make {
  service : string;
  status : string;
  last_check : datetime;
  metrics : JSON
}.
End IntegrationStatus.

Module Hub.

(** [EnterpriseIntegrationHub]: what [__init__] sets, but for the two
    sessions, which the network stands for. *)
Record t : Type := {
  scs_url : string;
  scs_api_key : option string;
  n8n_url : string;
  n8n_api_key : option string;
  integrations : PyDict.t IntegrationStatus.t;
  scs_headers : PyDict.t JSON;
  n8n_headers : PyDict.t JSON
}.

Definition set_integrations (i : PyDict.t IntegrationStatus.t) (self : t)
    : t :=
  {| scs_url := scs_url self;
     scs_api_key := scs_api_key self;
     n8n_url := n8n_url self;
     n8n_api_key := n8n_api_key self;
     integrations := i;
     scs_headers := scs_headers self;
     n8n_headers := n8n_headers self |}.

(** [self.integrations[name] = integration] *)
Definition setitem (name : string) (integration : IntegrationStatus.t)
    : SE t unit :=
  se_modify (fun self =>
    set_integrations (PyDict.set name integration (integrations self)) self).

(** [self.integrations[name]], a [KeyError] when it is not there. *)
Definition getitem (name : string) : SE t IntegrationStatus.t :=
  self <~ se_get ;;
  match PyDict.get name (integrations self) with
  | Some integration => se_ret integration
  | None => se_raise ("'" ++ name ++ "'")
  end.

(** An entry as the comment on [IntegrationStatus.status] has it, with
    metrics that are a dict. *)
Definition well_formed (integration : IntegrationStatus.t) : Prop :=
  (IntegrationStatus.status integration = "connected"
   \/ IntegrationStatus.status integration = "disconnected"
   \/ IntegrationStatus.status integration = "error")
  /\ is_dict (IntegrationStatus.metrics integration) = true.

(** A local variable that is assigned on some paths only. *)
Definition local_variable (unbound_local : string -> string)
    (name : string) (value : option JSON) : result JSON :=
  match value with
  | Some v => Ok v
  | None => Raise (unbound_local name)
  end.

Definition newline : string := String (ascii_of_nat 10) "".

Section Methods.

(** Python's own: [datetime.isoformat], [str] on a value that is not a
    string, [len] on a string, [strftime('%Y-%m-%d %H:%M:%S UTC')],
    [json.dumps(_, indent=2)], [hash] on a string, and the message of the
    [UnboundLocalError] for a name. *)
Variable isoformat : datetime -> string.
Variable py_str : JSON -> string.
Variable str_len : string -> nat.
Variable strftime : datetime -> string.
Variable json_dumps : JSON -> string.
Variable py_hash : string -> Z.
Variable unbound_local : string -> string.

(** The environment of the process. *)
Variable environ : Environ.

(** [f"{v}"] *)
Definition format_value (v : JSON) : string :=
  match v with JString s => s | _ => py_str v end.

(** [__init__] *)
Definition init : t :=
  let scs_api_key := environ "SCS_API_KEY" in
  let n8n_api_key := environ "N8N_API_KEY" in
  {| scs_url := getenv_default environ "SCS_URL" "http://localhost:23456";
     scs_api_key := scs_api_key;
     n8n_url := getenv_default environ "N8N_URL" "http://localhost:5678";
     n8n_api_key := n8n_api_key;
     integrations := PyDict.empty;
     scs_headers :=
       [("X-API-Key", optional_str scs_api_key);
        ("Content-Type", JString "application/json")];
     n8n_headers :=
       [("X-N8N-API-KEY", optional_str n8n_api_key);
        ("Content-Type", JString "application/json")] |}.

(** The status recorded when an initialization raised. *)
Definition error_status (service : string) (now : datetime) (e : string)
    : IntegrationStatus.t :=
  IntegrationStatus.make service "error" now
    (JObject [("error", JString e)]).

(** [_connect_scs()]; [now] is the clock read in the body and
    [now_except] the one read in the handler. *)
Definition _connect_scs (net : Network) (now now_except : datetime)
    : SE t unit :=
  se_try
    (self <~ se_get ;;
     response <~ se_lift
       (net (session_get (scs_url self ++ "/health") (scs_headers self))) ;;
     if Z.eqb (http_status response) 200
     then
       data <~ se_lift (http_json response) ;;
       se_lift (call_get data "status" (JString "healthy")) ;;~
       setitem "shared-context-server"
         (IntegrationStatus.make "Shared Context Server" "connected" now
            data)
     else
       se_raise ("Status code: " ++ py_str (JInt (http_status response))))
    (fun e =>
       setitem "shared-context-server"
         (error_status "Shared Context Server" now_except e)).

(** [_create_scs_session(purpose, metadata)] *)
Definition _create_scs_session (net : Network) (purpose : string)
    (metadata : JSON) : SE t JSON :=
  se_try
    (let session_payload :=
       JObject
         [("purpose", JString purpose);
          ("metadata", metadata);
          ("auto_generate_session_id", JBool true)] in
     self <~ se_get ;;
     response <~ se_lift
       (net (session_post (scs_url self ++ "/api/sessions") session_payload
               (scs_headers self))) ;;
     if Z.eqb (http_status response) 200
     then se_lift (http_json response)
     else
       se_raise ("SCS API error: " ++ py_str (JInt (http_status response))))
    (fun _ => se_ret (JObject [])).

(** [_init_microsoft365()] *)
Definition _init_microsoft365 (net : Network) (now now_except : datetime)
    : SE t unit :=
  se_try
    (let tenant_id := environ "MS365_TENANT_ID" in
     let client_id := environ "MS365_CLIENT_ID" in
     if str_truthy tenant_id && str_truthy client_id
     then
       session_data <~ _create_scs_session net "Microsoft 365 Integration"
         (JObject
            [("service", JString "microsoft365");
             ("tenant", optional_str tenant_id)]) ;;
       session_id <~ se_lift (call_get session_data "session_id" JNull) ;;
       setitem "microsoft365"
         (IntegrationStatus.make "Microsoft 365" "connected" now
            (JObject
               [("session_id", session_id);
                ("tenant", optional_str tenant_id)]))
     else
       setitem "microsoft365"
         (IntegrationStatus.make "Microsoft 365" "disconnected" now
            (JObject [("error", JString "credentials_not_configured")])))
    (fun e =>
       setitem "microsoft365" (error_status "Microsoft 365" now_except e)).

(** [_init_github_enterprise()] *)
Definition _init_github_enterprise (net : Network)
    (now now_except : datetime) : SE t unit :=
  se_try
    (let github_token := environ "GITHUB_TOKEN" in
     let github_url :=
       getenv_default environ "GITHUB_ENTERPRISE_URL" "https://github.com" in
     if str_truthy github_token
     then
       response <~ se_lift
         (net (session_get (github_url ++ "/user")
                 [("Authorization",
                   JString ("token " ++ format_optional github_token))])) ;;
       if Z.eqb (http_status response) 200
       then
         user_data <~ se_lift (http_json response) ;;
         se_lift (call_get user_data "login" (JString "unknown")) ;;~
         login <~ se_lift (call_get user_data "login" JNull) ;;
         session_data <~ _create_scs_session net
           "GitHub Enterprise Integration"
           (JObject
              [("service", JString "github");
               ("user", login);
               ("enterprise_url", JString github_url)]) ;;
         session_id <~ se_lift (call_get session_data "session_id" JNull) ;;
         user <~ se_lift (call_get user_data "login" JNull) ;;
         setitem "github"
           (IntegrationStatus.make "GitHub Enterprise" "connected" now
              (JObject
                 [("session_id", session_id);
                  ("user", user);
                  ("enterprise_url", JString github_url)]))
       else
         se_raise
           ("GitHub API error: " ++ py_str (JInt (http_status response)))
     else
       setitem "github"
         (IntegrationStatus.make "GitHub Enterprise" "disconnected" now
            (JObject [("error", JString "token_not_configured")])))
    (fun e =>
       setitem "github" (error_status "GitHub Enterprise" now_except e)).

(** [_init_notion()] *)
Definition _init_notion (net : Network) (now now_except : datetime)
    : SE t unit :=
  se_try
    (let notion_token := environ "NOTION_TOKEN" in
     let database_id := environ "NOTION_DATABASE_ID" in
     if str_truthy notion_token && str_truthy database_id
     then
       session_data <~ _create_scs_session net "Notion Integration"
         (JObject
            [("service", JString "notion");
             ("database_id", optional_str database_id)]) ;;
       session_id <~ se_lift (call_get session_data "session_id" JNull) ;;
       setitem "notion"
         (IntegrationStatus.make "Notion" "connected" now
            (JObject
               [("session_id", session_id);
                ("database_id", optional_str database_id)]))
     else
       setitem "notion"
         (IntegrationStatus.make "Notion" "disconnected" now
            (JObject [("error", JString "credentials_not_configured")])))
    (fun e => setitem "notion" (error_status "Notion" now_except e)).

(** [len(workflows.get('data', []))] *)
Definition active_workflows (workflows : JSON) : result nat :=
  match call_get workflows "data" (JArray []) with
  | Ok data => py_len str_len data
  | Raise e => Raise e
  end.

(** [_init_n8n()] *)
Definition _init_n8n (net : Network) (now now_except : datetime)
    : SE t unit :=
  se_try
    (self <~ se_get ;;
     response <~ se_lift
       (net (session_get (n8n_url self ++ "/rest/active")
               (n8n_headers self))) ;;
     if Z.eqb (http_status response) 200
     then
       workflows <~ se_lift (http_json response) ;;
       se_lift (active_workflows workflows) ;;~
       count <~ se_lift (active_workflows workflows) ;;
       setitem "n8n"
         (IntegrationStatus.make "n8n Workflows" "connected" now
            (JObject
               [("active_workflows", JInt (Z.of_nat count));
                ("url", JString (n8n_url self))]))
     else
       se_raise ("n8n API error: " ++ py_str (JInt (http_status response))))
    (fun e => setitem "n8n" (error_status "n8n Workflows" now_except e)).

(** The [external_apis] dict of [_init_external_apis]. *)
Definition external_apis : PyDict.t JSON :=
  let configured := JObject [("status", JString "configured")] in
  let apis := PyDict.empty in
  let apis :=
    if str_truthy (environ "SLACK_BOT_TOKEN")
    then PyDict.set "slack" configured apis else apis in
  let apis :=
    if str_truthy (environ "JIRA_API_TOKEN") && str_truthy (environ "JIRA_URL")
    then PyDict.set "jira" configured apis else apis in
  let apis :=
    if str_truthy (environ "SALESFORCE_CLIENT_ID")
    then PyDict.set "salesforce" configured apis else apis in
  apis.

(** [_init_external_apis()] *)
Definition _init_external_apis (now : datetime) : SE t unit :=
  setitem "external_apis"
    (IntegrationStatus.make "External APIs"
       (if truthy (JObject external_apis) then "connected"
        else "disconnected")
       now
       (JObject
          [("configured_apis",
            JArray (map JString (PyDict.keys external_apis)))])).

(** [_initialize_integrations()]; [clock k] is the [k]-th reading of the
    clock it may take, two for each integration with a handler. *)
Definition _initialize_integrations (net : Network)
    (clock : nat -> datetime) : SE t unit :=
  _init_microsoft365 net (clock 0) (clock 1) ;;~
  _init_github_enterprise net (clock 2) (clock 3) ;;~
  _init_notion net (clock 4) (clock 5) ;;~
  _init_n8n net (clock 6) (clock 7) ;;~
  _init_external_apis (clock 8).

(** [sum(1 for i in self.integrations.values() if i.status == 'connected')] *)
Definition connected_count (integrations : PyDict.t IntegrationStatus.t)
    : nat :=
  list_sum
    (map (fun _ => 1)
       (filter
          (fun i => String.eqb (IntegrationStatus.status i) "connected")
          (PyDict.values integrations))).

(** [_health_check_all()]: it only logs, one line for each integration
    and the summary [connected_count/total_count], returned here. *)
Definition _health_check_all : SE t (nat * nat) :=
  self <~ se_get ;;
  se_ret (connected_count (integrations self),
          PyDict.len (integrations self)).

(** [initialize()] *)
Definition initialize (net : Network) (clock : nat -> datetime)
    : SE t unit :=
  _connect_scs net (clock 0) (clock 1) ;;~
  _initialize_integrations net (fun k => clock (2 + k)) ;;~
  _health_check_all ;;~
  se_ret tt.

(** [get_system_status()] *)
Definition get_system_status (now : datetime) : SE t JSON :=
  self <~ se_get ;;
  se_ret
    (JObject
       [("hub_status", JString "running");
        ("timestamp", JString (isoformat now));
        ("integrations",
         JObject
           (fold_left
              (fun entries item =>
                 PyDict.set (fst item)
                   (JObject
                      [("status",
                        JString (IntegrationStatus.status (snd item)));
                       ("last_check",
                        JString
                          (isoformat
                             (IntegrationStatus.last_check (snd item))));
                       ("metrics", IntegrationStatus.metrics (snd item))])
                   entries)
              (integrations self) PyDict.empty));
        ("total_integrations",
         JInt (Z.of_nat (PyDict.len (integrations self))));
        ("connected_integrations",
         JInt (Z.of_nat (connected_count (integrations self))))]).

(** [_analyze_email_with_scs(email_data)] *)
Definition _analyze_email_with_scs (net : Network)
    (email_data : PyDict.t JSON) : SE t JSON :=
  se_try
    (self <~ se_get ;;
     session_id <~ se_lift
       (match PyDict.get "microsoft365" (integrations self) with
        | Some integration =>
            call_get (IntegrationStatus.metrics integration) "session_id"
              JNull
        | None => Raise "'dict' object has no attribute 'metrics'"
        end) ;;
     let message_payload :=
       JObject
         [("session_id", session_id);
          ("agent_name", JString "email_analyzer");
          ("content",
           JString
             ("Analizando email: "
                ++ format_value
                     (get_default "subject" (JString "Sin asunto")
                        email_data)));
          ("message_type", JString "analysis");
          ("metadata",
           JObject
             [("email_data", JObject email_data);
              ("analysis_type", JString "email_classification")])] in
     response <~ se_lift
       (net (session_post (scs_url self ++ "/api/sessions/messages")
               message_payload (scs_headers self))) ;;
     if Z.eqb (http_status response) 200
     then se_lift (http_json response)
     else
       se_ret
         (JObject
            [("analysis", JString "manual_fallback");
             ("category", JString "technical_request")]))
    (fun e =>
       se_ret
         (JObject [("analysis", JString "error"); ("error", JString e)])).

(** The body of the issue [_create_github_issue_from_email] posts. *)
Definition issue_body (now : datetime) (sender subject body analysis : JSON)
    : string :=
  "**Issue generado desde email**" ++ newline
  ++ newline
  ++ "**De:** " ++ format_value sender ++ newline
  ++ "**Asunto:** " ++ format_value subject ++ newline
  ++ "**Fecha:** " ++ strftime now ++ newline
  ++ newline
  ++ "---" ++ newline
  ++ newline
  ++ "**Contenido del email:**" ++ newline
  ++ format_value body ++ newline
  ++ newline
  ++ "---" ++ newline
  ++ newline
  ++ "**Análisis automático:**" ++ newline
  ++ "```json" ++ newline
  ++ json_dumps analysis ++ newline
  ++ "```" ++ newline
  ++ newline
  ++ "---" ++ newline
  ++ newline
  ++ "🤖 *Este issue fue creado automáticamente por el Enterprise Integration Hub*"
  ++ newline.

(** [_create_github_issue_from_email(email_data, analysis)] *)
Definition _create_github_issue_from_email (net : Network) (now : datetime)
    (email_data : PyDict.t JSON) (analysis : JSON) : SE t JSON :=
  se_try
    (let github_token := environ "GITHUB_TOKEN" in
     let github_url :=
       getenv_default environ "GITHUB_ENTERPRISE_URL" "https://github.com" in
     let subject :=
       get_default "subject" (JString "Issue from Email") email_data in
     let sender :=
       get_default "from" (JString "unknown@example.com") email_data in
     let body := get_default "body" (JString "") email_data in
     let title := "[EMAIL] " ++ format_value subject in
     let issue_data :=
       JObject
         [("title", JString title);
          ("body", JString (issue_body now sender subject body analysis));
          ("labels",
           JArray [JString "automation"; JString "email-integration"])] in
     response <~ se_lift
       (net (session_post
               (github_url
                  ++ "/repos/omanzanodev/enterprise-integration-hub/issues")
               issue_data
               [("Authorization",
                 JString ("token " ++ format_optional github_token))])) ;;
     if Z.eqb (http_status response) 201
     then se_lift (http_json response)
     else
       se_raise
         ("GitHub API error: " ++ py_str (JInt (http_status response))))
    (fun _ => se_ret (JObject [])).

(** [github_issue.get('html_url') if github_issue else None] and its
    like. *)
Definition get_if_true (v : JSON) (key : string) : result JSON :=
  if truthy v then call_get v key JNull else Ok JNull.

(** [_create_notion_documentation(email_data, analysis, github_issue)] *)
Definition _create_notion_documentation (now : datetime)
    (email_data : PyDict.t JSON) (analysis github_issue : JSON)
    : SE t JSON :=
  se_try
    (let title :=
       "Email Request: "
         ++ format_value
              (get_default "subject" (JString "Sin asunto") email_data) in
     let url :=
       "https://notion.so/entry/"
         ++ py_str (JInt (py_hash (py_str (JObject email_data)))) in
     issue_url <~ se_lift (get_if_true github_issue "html_url") ;;
     se_ret
       (JObject
          [("title", JString title);
           ("url", JString url);
           ("properties",
            JObject
              [("Source", JString "Email Integration");
               ("Status", JString "Documented");
               ("GitHub Issue", issue_url);
               ("Created", JString (isoformat now))])]))
    (fun _ => se_ret (JObject [])).

(** The message [_notify_teams_workflow_completion] builds. *)
Definition teams_message (workflow_name : string) (details : JSON)
    : string :=
  "✅ **Workflow completado: " ++ workflow_name ++ "**" ++ newline
  ++ newline
  ++ "**Detalles:**" ++ newline
  ++ json_dumps details ++ newline
  ++ newline
  ++ "🤖 *Notificación automática de Enterprise Integration Hub*".

(** [_notify_teams_workflow_completion(workflow_name, details)]: the
    message is built and only logged. *)
Definition _notify_teams_workflow_completion (workflow_name : string)
    (details : JSON) : SE t unit :=
  se_try
    (microsoft365 <~ getitem "microsoft365" ;;
     if String.eqb (IntegrationStatus.status microsoft365) "connected"
     then
       let message := teams_message workflow_name details in
       se_ret tt
     else se_ret tt)
    (fun _ => se_ret tt).

(** [process_email_to_github_workflow(email_data)]; [github_issue] and
    [notion_page] are assigned only when their integration is connected,
    and [now_issue] and [now_page] are the clock read for the issue and
    for the page. *)
Definition process_email_to_github_workflow (net : Network)
    (now_issue now_page : datetime) (email_data : PyDict.t JSON)
    : SE t JSON :=
  se_try
    (analysis_data <~ _analyze_email_with_scs net email_data ;;
     github <~ getitem "github" ;;
     github_issue <~
       (if String.eqb (IntegrationStatus.status github) "connected"
        then
          issue <~ _create_github_issue_from_email net now_issue email_data
                     analysis_data ;;
          se_lift (call_get issue "html_url" JNull) ;;~
          se_ret (Some issue)
        else se_ret None) ;;
     notion <~ getitem "notion" ;;
     notion_page <~
       (if String.eqb (IntegrationStatus.status notion) "connected"
        then
          issue <~ se_lift
            (local_variable unbound_local "github_issue" github_issue) ;;
          page <~ _create_notion_documentation now_page email_data
                    analysis_data issue ;;
          se_lift (call_get page "url" JNull) ;;~
          se_ret (Some page)
        else se_ret None) ;;
     let email_subject := get_default "subject" JNull email_data in
     issue <~ se_lift
       (local_variable unbound_local "github_issue" github_issue) ;;
     issue_url <~ se_lift (get_if_true issue "html_url") ;;
     page <~ se_lift
       (local_variable unbound_local "notion_page" notion_page) ;;
     page_url <~ se_lift (get_if_true page "url") ;;
     _notify_teams_workflow_completion "Email → GitHub → Notion"
       (JObject
          [("email_subject", email_subject);
           ("github_issue", issue_url);
           ("notion_doc", page_url)]) ;;~
     se_ret
       (JObject
          [("success", JBool true);
           ("workflow", JString "email_to_github_to_notion");
           ("github_issue", issue);
           ("notion_page", page)]))
    (fun e =>
       se_ret (JObject [("success", JBool false); ("error", JString e)])).

End Methods.
End Hub.

(** ** Concrete built-ins and inputs for the examples *)

Definition epoch_isoformat (_ : datetime) : string :=
  "1970-01-01T00:00:00+00:00".

Definition repr_unknown (_ : JSON) : string := "?".

(** An execution whose [duration] is its [end_time - start_time]. *)
Definition timed_execution : WorkflowExecution.t :=
  WorkflowExecution.make "wf-0" "sync" "success" 0%Q 10%Q 10%Q [] [] "".

(** An execution whose [duration] is not its [end_time - start_time]. *)
Definition skewed_execution : WorkflowExecution.t :=
  WorkflowExecution.make "wf-1" "sync" "success" 0%Q 10%Q (-3)%Q [] [] "".

(** A metric of a registry whose github entry is in error. *)
Definition metric_with_status (service status : string)
    : IntegrationMetric.t :=
  IntegrationMetric.make service status 0 100 0%Q 0%Q 0%Z 0%Z 100.

(** A store whose registry has github in error and notion connected. *)
Definition github_down : IntegrationDashboard :=
  {| integration_metrics :=
       [("github", metric_with_status "github" "error");
        ("notion", metric_with_status "notion" "connected")];
     workflow_executions := [];
     system_events := [] |}.

(** A request whose body is not JSON. *)
Definition unparsable_request : Request :=
  {| request_json := Raise "Expecting value: line 1 column 1 (char 0)" |}.

(** The message of CPython 3.11 for a local read before it is bound. *)
Definition unbound_local_message (name : string) : string :=
  "cannot access local variable '" ++ name
    ++ "' where it is not associated with a value".

Definition epoch_strftime (_ : datetime) : string :=
  "1970-01-01 00:00:00 UTC".

Definition hash_zero (_ : string) : Z := 0%Z.

(** A network that is down, an empty environment, and a GitHub that
    answers every request with status 201 and an issue. *)
Definition offline : Network := fun _ => Raise "Cannot connect to host".

Definition no_environ : Environ := fun _ => None.

Definition created_issue : JSON :=
  JObject [("html_url", JString "https://github.com/o/r/issues/1")].

Definition issue_created : Network :=
  fun _ => Ok {| http_status := 201%Z; http_json := Ok created_issue |}.

(** A hub whose github entry is disconnected and whose notion entry is
    connected, and one with both connected. *)
Definition hub_with (github_status : string) : Hub.t :=
  Hub.set_integrations
    [("github",
      IntegrationStatus.make "GitHub Enterprise" github_status 0%Q
        (JObject []));
     ("notion",
      IntegrationStatus.make "Notion" "connected" 0%Q (JObject []))]
    (Hub.init no_environ).

(** ** The dashboard *)

Definition default_integrations : list string :=
  ["shared-context-server"; "microsoft365"; "github"; "notion";
   "n8n"; "external_apis"].

Section Dashboard.

(** [datetime.isoformat] and [str] on a value that is not a string are
    Python's own. *)
Variable isoformat : datetime -> string.
Variable py_str : JSON -> string.

(** [f"{v}"] *)
Definition format_value (v : JSON) : string :=
  match v with JString s => s | _ => py_str v end.

(** The dict [add_system_event] appends. *)
Definition system_event (now : datetime) (event_type message : string)
    (data : JSON) : PyDict.t JSON :=
  [("type", JString event_type);
   ("message", JString message);
   ("timestamp", JString (isoformat now));
   ("data", py_or data (JObject []))].

(** The dict [handle_webhook] appends. *)
Definition webhook_event (now : datetime) (webhook_type data : JSON)
    : PyDict.t JSON :=
  [("type", JString "webhook_received");
   ("source", webhook_type);
   ("message", JString ("Webhook recibido de " ++ format_value webhook_type));
   ("timestamp", JString (isoformat now));
   ("data", data)].

(** [add_system_event(event_type, message, data)]; [data] is [JNull]
    for [None], its default. *)
Definition add_system_event (now : datetime) (event_type message : string)
    (data : JSON) : M unit :=
  modify (fun self =>
    set_system_events
      (system_events self ++ [system_event now event_type message data])
      self) ;;;
  n <- read (fun self => List.length (system_events self)) ;;
  if 500 <? n
  then modify (fun self =>
         set_system_events (last_items 500 (system_events self)) self)
  else ret tt.

(** The message and the payload [add_workflow_execution] hands to
    [add_system_event]. *)
Definition workflow_message (execution : WorkflowExecution.t) : string :=
  "Workflow " ++ WorkflowExecution.workflow_name execution
    ++ " ejecutado con estado " ++ WorkflowExecution.status execution.

Definition workflow_data (execution : WorkflowExecution.t) : JSON :=
  JObject
    [("workflow_id", JString (WorkflowExecution.workflow_id execution));
     ("duration", JFloat (WorkflowExecution.duration execution));
     ("status", JString (WorkflowExecution.status execution))].

(** [add_workflow_execution(execution)] *)
Definition add_workflow_execution (now : datetime)
    (execution : WorkflowExecution.t) : M unit :=
  modify (fun self =>
    set_workflow_executions (workflow_executions self ++ [execution])
      self) ;;;
  n <- read (fun self => List.length (workflow_executions self)) ;;
  (if 1000 <? n
   then modify (fun self =>
          set_workflow_executions
            (last_items 1000 (workflow_executions self)) self)
   else ret tt) ;;;
  add_system_event now
    "workflow_execution"
    (workflow_message execution)
    (workflow_data execution).

(** [handle_webhook(request)] as the file has it. The statement of lines
    528 to 534 appends a dict literal that opens with a brace and closes
    with a bracket, which Python does not parse: what that statement does
    is left open, as the computation [append_event] on the store, given
    the clock, the webhook type and the parsed body. *)
Definition handle_webhook_with
    (append_event : datetime -> JSON -> JSON -> M unit)
    (now : datetime) (request : Request)
    : IntegrationDashboard -> Response * IntegrationDashboard :=
  try_except
    (data <- lift (request_json request) ;;
     webhook_type <- lift (call_get data "type" (JString "unknown")) ;;
     append_event now webhook_type data ;;;
     n <- read (fun self => List.length (system_events self)) ;;
     (if 500 <? n
      then modify (fun self =>
             set_system_events (last_items 500 (system_events self)) self)
      else ret tt) ;;;
     ret (json_response (JObject [("success", JBool true)]) 200%Z))
    (fun e _ => json_response (JObject [("error", JString e)]) 500%Z).

(** The handler repaired: the closing bracket of the appended dict read
    as the brace it stands for. It is what a webhook call does in the
    runs below. *)
Definition handle_webhook (now : datetime) (request : Request)
    : IntegrationDashboard -> Response * IntegrationDashboard :=
  try_except
    (data <- lift (request_json request) ;;
     webhook_type <- lift (call_get data "type" (JString "unknown")) ;;
     modify (fun self =>
       set_system_events
         (system_events self ++ [webhook_event now webhook_type data])
         self) ;;;
     n <- read (fun self => List.length (system_events self)) ;;
     (if 500 <? n
      then modify (fun self =>
             set_system_events (last_items 500 (system_events self)) self)
      else ret tt) ;;;
     ret (json_response (JObject [("success", JBool true)]) 200%Z))
    (fun e _ => json_response (JObject [("error", JString e)]) 500%Z).

(** [{**asdict(execution), "start_time": ..., "end_time": ...}]: the
    fields in declaration order, the two times in ISO form. *)
Definition execution_dict (execution : WorkflowExecution.t)
    : PyDict.t JSON :=
  [("workflow_id", JString (WorkflowExecution.workflow_id execution));
   ("workflow_name", JString (WorkflowExecution.workflow_name execution));
   ("status", JString (WorkflowExecution.status execution));
   ("start_time",
      JString (isoformat (WorkflowExecution.start_time execution)));
   ("end_time",
      JString (isoformat (WorkflowExecution.end_time execution)));
   ("duration", JFloat (WorkflowExecution.duration execution));
   ("input_data", JObject (WorkflowExecution.input_data execution));
   ("output_data", JObject (WorkflowExecution.output_data execution));
   ("error_message",
      JString (WorkflowExecution.error_message execution))].

(** [get_workflow_executions(request)] *)
Definition get_workflow_executions
    : IntegrationDashboard -> Response * IntegrationDashboard :=
  try_except
    (recent <- read (fun self => last_items 50 (workflow_executions self)) ;;
     ret (json_response
            (JArray (map (fun execution => JObject (execution_dict execution))
                       recent))
            200%Z))
    (fun e _ => json_response (JObject [("error", JString e)]) 500%Z).


(** [{**asdict(metric), "last_success": ..., "last_error": ...}]; a
    [datetime] is always true, so both times are in ISO form. *)
Definition metric_dict (metric : IntegrationMetric.t) : PyDict.t JSON :=
  [("service", JString (IntegrationMetric.service metric));
   ("status", JString (IntegrationMetric.status metric));
   ("response_time", JFloat (IntegrationMetric.response_time metric));
   ("success_rate", JFloat (IntegrationMetric.success_rate metric));
   ("last_success",
      JString (isoformat (IntegrationMetric.last_success metric)));
   ("last_error",
      JString (isoformat (IntegrationMetric.last_error metric)));
   ("total_requests", JInt (IntegrationMetric.total_requests metric));
   ("error_count", JInt (IntegrationMetric.error_count metric));
   ("uptime_percentage",
      JFloat (IntegrationMetric.uptime_percentage metric))].

(** [get_integration_metrics(request)] *)
Definition get_integration_metrics
    : IntegrationDashboard -> Response * IntegrationDashboard :=
  try_except
    (items <- read integration_metrics ;;
     ret (json_response
            (JObject
               (fold_left
                  (fun metrics_dict item =>
                     PyDict.set (fst item) (JObject (metric_dict (snd item)))
                       metrics_dict)
                  items PyDict.empty))
            200%Z))
    (fun e _ => json_response (JObject [("error", JString e)]) 500%Z).

(** [sum(1 for m in self.integration_metrics.values()
        if m.status == 'connected')] *)
Definition connected_integrations
    (metrics : PyDict.t IntegrationMetric.t) : nat :=
  list_sum
    (map (fun _ => 1)
       (filter (fun m => String.eqb (IntegrationMetric.status m) "connected")
          (PyDict.values metrics))).

(** [get_system_status(request)]; [scs_status] and [n8n_status] are what
    the two status probes returned (they catch their own exceptions). *)
Definition get_system_status (now : datetime) (scs_status n8n_status : JSON)
    : IntegrationDashboard -> Response * IntegrationDashboard :=
  try_except
    (total_integrations <-
       read (fun self => PyDict.len (integration_metrics self)) ;;
     connected <-
       read (fun self => connected_integrations (integration_metrics self)) ;;
     executions <- read (fun self => List.length (workflow_executions self)) ;;
     events <- read (fun self => List.length (system_events self)) ;;
     ret (json_response
            (JObject
               [("status", JString "healthy");
                ("timestamp", JString (isoformat now));
                ("total_integrations", JInt (Z.of_nat total_integrations));
                ("connected_integrations", JInt (Z.of_nat connected));
                ("integration_health", scs_status);
                ("n8n_status", n8n_status);
                ("workflow_executions", JInt (Z.of_nat executions));
                ("system_events", JInt (Z.of_nat events))])
            200%Z))
    (fun e _ => json_response (JObject [("error", JString e)]) 500%Z).

(** The metric [_initialize_metrics] seeds for one integration. *)
Definition seed_metric (integration : string)
    (now_success now_error : datetime) : IntegrationMetric.t :=
  IntegrationMetric.make integration "unknown" 0 100
    now_success now_error 0%Z 0%Z 100.

(** The loop of [_initialize_metrics]; [clock k] is the [k]-th reading
    of [datetime.now], two per integration. *)
Fixpoint initialize_loop (clock : nat -> datetime) (i : nat)
    (integrations : list string) (metrics : PyDict.t IntegrationMetric.t)
    : PyDict.t IntegrationMetric.t :=
  match integrations with
  | [] => metrics
  | integration :: rest =>
      initialize_loop clock (S i) rest
        (PyDict.set integration
           (seed_metric integration (clock (2 * i)) (clock (2 * i + 1)))
           metrics)
  end.

Definition _initialize_metrics (clock : nat -> datetime) : M unit :=
  modify (fun self =>
    set_integration_metrics
      (initialize_loop clock 0 default_integrations
         (integration_metrics self))
      self).

(** The two assignments of the simulation loop of [main]; [u1] and [u2]
    are the two values [random()] returned. *)
Definition simulate_metric (u1 u2 : Q) (metric : IntegrationMetric.t)
    : IntegrationMetric.t :=
  let response_time :=
    py_max 10 (IntegrationMetric.response_time metric + uniform (-5) 5 u1) in
  let success_rate :=
    py_max 90
      (py_min 100
         (IntegrationMetric.success_rate metric + uniform (-1) 1 u2)) in
  IntegrationMetric.make
    (IntegrationMetric.service metric)
    (IntegrationMetric.status metric)
    response_time
    success_rate
    (IntegrationMetric.last_success metric)
    (IntegrationMetric.last_error metric)
    (IntegrationMetric.total_requests metric)
    (IntegrationMetric.error_count metric)
    (IntegrationMetric.uptime_percentage metric).

(** [for service, metric in dashboard.integration_metrics.items()];
    [rand k] is the [k]-th value of [random()], two per service. *)
Fixpoint simulate_loop (rand : nat -> Q) (i : nat)
    (items : PyDict.t IntegrationMetric.t)
    : PyDict.t IntegrationMetric.t :=
  match items with
  | [] => []
  | (service, metric) :: rest =>
      (service, simulate_metric (rand (2 * i)) (rand (2 * i + 1)) metric)
        :: simulate_loop rand (S i) rest
  end.

(** One turn of [while True] in [main], after the sleep. *)
Definition simulate_metrics (rand : nat -> Q) : M unit :=
  modify (fun self =>
    set_integration_metrics
      (simulate_loop rand 0 (integration_metrics self)) self).

(** ** Runs of the dashboard *)

(** The calls that change the store. *)
Inductive Call : Type :=
| CallAddSystemEvent (now : datetime) (event_type message : string)
    (data : JSON)
| CallWebhook (now : datetime) (request : Request)
| CallAddWorkflowExecution (now : datetime)
    (execution : WorkflowExecution.t)
| CallInitializeMetrics (clock : nat -> datetime)
| CallSimulateMetrics (rand : nat -> Q).

Definition exec (c : Call) (self : IntegrationDashboard)
    : IntegrationDashboard :=
  match c with
  | CallAddSystemEvent now event_type message data =>
      snd (add_system_event now event_type message data self)
  | CallWebhook now request => snd (handle_webhook now request self)
  | CallAddWorkflowExecution now execution =>
      snd (add_workflow_execution now execution self)
  | CallInitializeMetrics clock => snd (_initialize_metrics clock self)
  | CallSimulateMetrics rand => snd (simulate_metrics rand self)
  end.

Definition run (calls : list Call) (self : IntegrationDashboard)
    : IntegrationDashboard :=
  fold_left (fun self c => exec c self) calls self.

(** The event a call hands to the event log, if it does. *)
Definition emitted (c : Call) : list (PyDict.t JSON) :=
  match c with
  | CallAddSystemEvent now event_type message data =>
      [system_event now event_type message data]
  | CallWebhook now request =>
      match request_json request with
      | Ok (JObject d) =>
          [webhook_event now (get_default "type" (JString "unknown") d)
             (JObject d)]
      | _ => []
      end
  | CallAddWorkflowExecution now execution =>
      [system_event now "workflow_execution" (workflow_message execution)
         (workflow_data execution)]
  | _ => []
  end.

(** The calls of the webhook handler. *)
Definition is_webhook (c : Call) : bool :=
  match c with
  | CallWebhook _ _ => true
  | _ => false
  end.

(** The execution a call hands to the workflow log, if it does. *)
Definition recorded (c : Call) : list WorkflowExecution.t :=
  match c with
  | CallAddWorkflowExecution _ execution => [execution]
  | _ => []
  end.

(** [duration == end_time - start_time], and not negative. *)
Definition duration_consistent (execution : WorkflowExecution.t) : Prop :=
  (WorkflowExecution.duration execution ==
     WorkflowExecution.end_time execution
       - WorkflowExecution.start_time execution)%Q
  /\ (0 <= WorkflowExecution.duration execution)%Q.

(** The services of a registry whose status is ['connected']. *)
Definition connected_services (metrics : PyDict.t IntegrationMetric.t)
    (names : list string) : Prop :=
  NoDup names
  /\ forall s, In s names <->
       exists m, PyDict.get s metrics = Some m
                 /\ IntegrationMetric.status m = "connected".


(** ** The status probes *)

(** [len] on a string is Python's own. *)
Variable str_len : string -> nat.

(** [_get_scs_status()]; [scs_url] and [scs_api_key] are the fields of
    that name. *)
Definition _get_scs_status (scs_url : string) (scs_api_key : option string)
    (net : Network)
    : IntegrationDashboard -> JSON * IntegrationDashboard :=
  try_except
    (response <- lift
       (net (session_get (scs_url ++ "/health")
               [("X-API-Key", optional_str scs_api_key)])) ;;
     if Z.eqb (http_status response) 200
     then lift (http_json response)
     else
       ret (JObject
              [("status", JString "error");
               ("error",
                JString ("HTTP " ++ py_str (JInt (http_status response))))]))
    (fun e _ =>
       JObject [("status", JString "error"); ("error", JString e)]).

(** [_get_n8n_status()] *)
Definition _get_n8n_status (n8n_url : string) (n8n_api_key : option string)
    (net : Network)
    : IntegrationDashboard -> JSON * IntegrationDashboard :=
  try_except
    (response <- lift
       (net (session_get (n8n_url ++ "/rest/active")
               [("X-N8N-API-KEY", optional_str n8n_api_key)])) ;;
     if Z.eqb (http_status response) 200
     then
       data <- lift (http_json response) ;;
       workflows <- lift (call_get data "data" (JArray [])) ;;
       count <- lift (py_len str_len workflows) ;;
       ret (JObject
              [("status", JString "connected");
               ("active_workflows", JInt (Z.of_nat count))])
     else
       ret (JObject
              [("status", JString "error");
               ("error",
                JString ("HTTP " ++ py_str (JInt (http_status response))))]))
    (fun e _ =>
       JObject [("status", JString "error"); ("error", JString e)]).

(** [health_check(request)] *)
Definition health_check (now : datetime) : Response :=
  json_response
    (JObject
       [("status", JString "healthy");
        ("timestamp", JString (isoformat now))])
    200%Z.

(** An event as the dashboard page reads it: a type, a message and a
    time stamp that are strings, and a payload. *)
Definition event_shaped (event : PyDict.t JSON) : Prop :=
  (exists s, PyDict.get "type" event = Some (JString s))
  /\ (exists s, PyDict.get "message" event = Some (JString s))
  /\ (exists s, PyDict.get "timestamp" event = Some (JString s))
  /\ (exists v, PyDict.get "data" event = Some v).

(** A draw of [random.random()] is in [0, 1). *)
Definition unit_draw (u : Q) : Prop := (0 <= u)%Q /\ (u < 1)%Q.

(** What holds of the registry once it is initialized: every default
    integration has its entry, still of unknown status, with no request
    and no error counted and a success rate between 90 and 100. *)
Definition tracked (metrics : PyDict.t IntegrationMetric.t) : Prop :=
  Forall
    (fun s =>
       exists m,
         PyDict.get s metrics = Some m
         /\ IntegrationMetric.service m = s
         /\ IntegrationMetric.status m = "unknown"
         /\ IntegrationMetric.total_requests m = 0%Z
         /\ IntegrationMetric.error_count m = 0%Z
         /\ (90 <= IntegrationMetric.success_rate m)%Q
         /\ (IntegrationMetric.success_rate m <= 100)%Q
         /\ (IntegrationMetric.uptime_percentage m == 100)%Q)
    default_integrations.

(** The ranges the simulation loop establishes for a metric. *)
Definition in_simulated_ranges (m : IntegrationMetric.t) : Prop :=
  (10 <= IntegrationMetric.response_time m)%Q
  /\ (90 <= IntegrationMetric.success_rate m)%Q
  /\ (IntegrationMetric.success_rate m <= 100)%Q.

(** ** Slices *)

Local Open Scope list_scope.

Lemma last_items_length {A : Type} (n : nat) (l : list A) :
  List.length (last_items n l) <= n.
Proof.
  unfold last_items. rewrite length_skipn. lia.
Qed.

Lemma last_items_short {A : Type} (n : nat) (l : list A) :
  List.length l <= n -> last_items n l = l.
Proof.
  intros H. unfold last_items.
  replace (List.length l - n) with 0 by lia. reflexivity.
Qed.

Lemma last_items_app {A : Type} (n : nat) (l l' : list A) :
  last_items n (last_items n l ++ l') = last_items n (l ++ l').
Proof.
  unfold last_items.
  set (a := List.length l - n).
  assert (Ha : skipn a l ++ l' = skipn a (l ++ l')).
  { rewrite skipn_app. replace (a - List.length l) with 0 by (subst a; lia).
    reflexivity. }
  rewrite Ha, skipn_skipn. f_equal.
  rewrite length_skipn, length_app. subst a. lia.
Qed.

Lemma last_items_idem {A : Type} (n : nat) (l : list A) :
  last_items n (last_items n l) = last_items n l.
Proof.
  apply last_items_short, last_items_length.
Qed.

(** The guarded slice of the code is the slice. *)
Lemma guarded_slice {A : Type} (n : nat) (l : list A) :
  (if n <? List.length l then last_items n l else l) = last_items n l.
Proof.
  destruct (n <? List.length l) eqn:E; [reflexivity|].
  apply Nat.ltb_ge in E. symmetry. now apply last_items_short.
Qed.

Lemma last_items_last {A : Type} (n : nat) (l : list A) (x d : A) :
  0 < n -> last (last_items n (l ++ [x])) d = x.
Proof.
  intros Hn. unfold last_items.
  rewrite length_app, skipn_app. simpl.
  replace (List.length l + 1 - n - List.length l) with 0 by lia.
  simpl. apply last_last.
Qed.

Lemma last_items_incl {A : Type} (n : nat) (l : list A) :
  incl (last_items n l) l.
Proof.
  unfold last_items. intros x Hx.
  rewrite <- (firstn_skipn (List.length l - n) l).
  apply in_or_app. now right.
Qed.

Lemma last_items_map {A B : Type} (f : A -> B) (n : nat) (l : list A) :
  last_items n (map f l) = map f (last_items n l).
Proof.
  unfold last_items. now rewrite length_map, skipn_map.
Qed.

Lemma last_items_nested {A : Type} (n m : nat) (l : list A) :
  n <= m -> last_items n (last_items m l) = last_items n l.
Proof.
  intros H. unfold last_items.
  rewrite skipn_skipn, length_skipn. f_equal. lia.
Qed.

(** ** What each call does to the store *)

#[local] Arguments Nat.ltb : simpl never.
#[local] Arguments last_items : simpl never.

Lemma add_system_event_eq (now : datetime) (event_type message : string)
    (data : JSON) (self : IntegrationDashboard) :
  add_system_event now event_type message data self =
  (Ok tt,
   set_system_events
     (last_items 500
        (system_events self ++ [system_event now event_type message data]))
     self).
Proof.
  unfold add_system_event, bind, modify, read, ret. cbn.
  rewrite <- (guarded_slice 500).
  destruct (500 <? _); reflexivity.
Qed.

Lemma add_workflow_execution_eq (now : datetime)
    (execution : WorkflowExecution.t) (self : IntegrationDashboard) :
  add_workflow_execution now execution self =
  (Ok tt,
   set_system_events
     (last_items 500
        (system_events self
           ++ [system_event now "workflow_execution"
                 (workflow_message execution) (workflow_data execution)]))
     (set_workflow_executions
        (last_items 1000 (workflow_executions self ++ [execution])) self)).
Proof.
  unfold add_workflow_execution, bind, modify, read, ret.
  cbn -[add_system_event workflow_message workflow_data].
  rewrite <- (guarded_slice 1000).
  destruct (1000 <? _); rewrite add_system_event_eq; reflexivity.
Qed.

Lemma handle_webhook_dict (now : datetime) (request : Request)
    (d : PyDict.t JSON) (self : IntegrationDashboard) :
  request_json request = Ok (JObject d) ->
  handle_webhook now request self =
  (json_response (JObject [("success", JBool true)]) 200%Z,
   set_system_events
     (last_items 500
        (system_events self
           ++ [webhook_event now (get_default "type" (JString "unknown") d)
                 (JObject d)]))
     self).
Proof.
  intros H. unfold handle_webhook, try_except, bind, lift, modify, read, ret.
  rewrite H. cbn.
  rewrite <- (guarded_slice 500).
  destruct (500 <? _); reflexivity.
Qed.

Lemma handle_webhook_raise (now : datetime) (request : Request)
    (msg : string) (self : IntegrationDashboard) :
  request_json request = Raise msg ->
  handle_webhook now request self =
  (json_response (JObject [("error", JString msg)]) 500%Z, self).
Proof.
  intros H. unfold handle_webhook, try_except, bind, lift.
  rewrite H. reflexivity.
Qed.

Lemma handle_webhook_not_dict (now : datetime) (request : Request)
    (v : JSON) (self : IntegrationDashboard) :
  request_json request = Ok v -> is_dict v = false ->
  handle_webhook now request self =
  (json_response
     (JObject
        [("error",
          JString ("'" ++ type_name v ++ "' object has no attribute 'get'")%string)])
     500%Z,
   self).
Proof.
  intros H Hv. unfold handle_webhook, try_except, bind, lift.
  rewrite H. destruct v; try discriminate; reflexivity.
Qed.

(** Every call leaves in the event log the last 500 of what was there
    and what it emitted. *)
Lemma exec_system_events (c : Call) (self : IntegrationDashboard) :
  List.length (system_events self) <= 500 ->
  system_events (exec c self) =
  last_items 500 (system_events self ++ emitted c).
Proof.
  intros Hlen. destruct c as [now ty msg data|now request|now e|clock|rand];
    cbn [exec emitted].
  - rewrite add_system_event_eq. reflexivity.
  - destruct (request_json request) as [v|msg] eqn:Hr.
    + destruct (is_dict v) eqn:Hv.
      * destruct v; try discriminate.
        rewrite (handle_webhook_dict _ _ _ _ Hr). reflexivity.
      * rewrite (handle_webhook_not_dict _ _ _ _ Hr Hv). cbn.
        destruct v; try discriminate;
          now rewrite app_nil_r, last_items_short.
    + rewrite (handle_webhook_raise _ _ _ _ Hr). cbn.
      now rewrite app_nil_r, last_items_short.
  - rewrite add_workflow_execution_eq. reflexivity.
  - cbn. now rewrite app_nil_r, last_items_short.
  - cbn. now rewrite app_nil_r, last_items_short.
Qed.

Lemma exec_workflow_executions (c : Call) (self : IntegrationDashboard) :
  List.length (workflow_executions self) <= 1000 ->
  workflow_executions (exec c self) =
  last_items 1000 (workflow_executions self ++ recorded c).
Proof.
  intros Hlen. destruct c as [now ty msg data|now request|now e|clock|rand];
    cbn [exec recorded]; rewrite ?app_nil_r.
  - rewrite add_system_event_eq. cbn. now rewrite last_items_short.
  - destruct (request_json request) as [v|msg] eqn:Hr.
    + destruct (is_dict v) eqn:Hv.
      * destruct v; try discriminate.
        rewrite (handle_webhook_dict _ _ _ _ Hr). cbn.
        now rewrite last_items_short.
      * rewrite (handle_webhook_not_dict _ _ _ _ Hr Hv). cbn.
        now rewrite last_items_short.
    + rewrite (handle_webhook_raise _ _ _ _ Hr). cbn.
      now rewrite last_items_short.
  - rewrite add_workflow_execution_eq. reflexivity.
  - cbn. now rewrite last_items_short.
  - cbn. now rewrite last_items_short.
Qed.

Lemma run_system_events (calls : list Call) (self : IntegrationDashboard) :
  List.length (system_events self) <= 500 ->
  system_events (run calls self) =
  last_items 500 (system_events self ++ flat_map emitted calls).
Proof.
  revert self. induction calls as [|c calls IH]; intros self Hlen; cbn.
  - now rewrite app_nil_r, last_items_short.
  - fold (run calls (exec c self)). rewrite IH.
    + rewrite (exec_system_events c self Hlen), last_items_app.
      now rewrite <- app_assoc.
    + rewrite (exec_system_events c self Hlen). apply last_items_length.
Qed.

Lemma run_workflow_executions (calls : list Call)
    (self : IntegrationDashboard) :
  List.length (workflow_executions self) <= 1000 ->
  workflow_executions (run calls self) =
  last_items 1000 (workflow_executions self ++ flat_map recorded calls).
Proof.
  revert self. induction calls as [|c calls IH]; intros self Hlen; cbn.
  - now rewrite app_nil_r, last_items_short.
  - fold (run calls (exec c self)). rewrite IH.
    + rewrite (exec_workflow_executions c self Hlen), last_items_app.
      now rewrite <- app_assoc.
    + rewrite (exec_workflow_executions c self Hlen). apply last_items_length.
Qed.

Lemma flat_map_recorded_numbered (clock : nat -> datetime)
    (numbered : nat -> WorkflowExecution.t) (l : list nat) :
  flat_map recorded
    (map (fun i => CallAddWorkflowExecution (clock i) (numbered i)) l) =
  map numbered l.
Proof.
  induction l as [|i l IH]; cbn; [reflexivity | now rewrite IH].
Qed.

Lemma get_workflow_executions_eq (self : IntegrationDashboard) :
  get_workflow_executions self =
  (json_response
     (JArray
        (map (fun execution => JObject (execution_dict execution))
           (last_items 50 (workflow_executions self))))
     200%Z,
   self).
Proof. reflexivity. Qed.

(** ** The event log *)

(** X23: from the empty store, after any sequence of calls that are not
    webhook calls (so appends by [add_system_event], alone or from
    [add_workflow_execution], between initializations and simulation
    turns) the event log holds at most 500 events and is exactly the last
    500 of the events appended so far, in the order they were appended;
    [add_system_event] always returns, and leaves the last 500 of the log
    extended with its event. *)
Theorem appended_events_bounded_fifo (calls : list Call) :
  Forall (fun c => is_webhook c = false) calls ->
  List.length (system_events (run calls init)) <= 500
  /\ system_events (run calls init) = last_items 500 (flat_map emitted calls)
  /\ forall now event_type message data self,
       exists self',
         add_system_event now event_type message data self = (Ok tt, self')
         /\ system_events self' =
            last_items 500
              (system_events self
                 ++ [system_event now event_type message data])
         /\ List.length (system_events self') <= 500.
Proof.
  intros _.
  assert (H : system_events (run calls init)
              = last_items 500 (flat_map emitted calls)).
  { rewrite run_system_events; cbn; [reflexivity | lia]. }
  split; [rewrite H; apply last_items_length|].
  split; [exact H|].
  intros now event_type message data self.
  eexists. split; [apply add_system_event_eq|].
  cbn. split; [reflexivity | apply last_items_length].
Qed.

(** The repaired handler is the handler whose malformed statement
    appends the dict the literal spells. *)
Lemma handle_webhook_repaired (now : datetime) (request : Request) :
  handle_webhook now request
  = handle_webhook_with
      (fun now webhook_type data =>
         modify (fun self =>
           set_system_events
             (system_events self ++ [webhook_event now webhook_type data])
             self))
      now request.
Proof. reflexivity. Qed.

(** C3 (as the code has it): whatever the malformed statement of lines
    528 to 534 does, a body that does not parse makes the handler answer
    500 with the message of the exception, and a body that parses to
    something else than a dict makes it answer 500 with the message of
    the missing [get]; both leave the store as it was. *)
Theorem handle_webhook_outcome
    (append_event : datetime -> JSON -> JSON -> M unit)
    (now : datetime) (self : IntegrationDashboard) :
  (forall msg,
     handle_webhook_with append_event now {| request_json := Raise msg |}
       self
     = (json_response (JObject [("error", JString msg)]) 500%Z, self))
  /\ (forall v,
        is_dict v = false ->
        handle_webhook_with append_event now {| request_json := Ok v |}
          self
        = (json_response
             (JObject
                [("error",
                  JString
                    ("'" ++ type_name v
                       ++ "' object has no attribute 'get'")%string)])
             500%Z,
           self)).
Proof.
  split.
  - intros msg. reflexivity.
  - intros v Hv. unfold handle_webhook_with, try_except, bind, lift.
    destruct v; try discriminate; reflexivity.
Qed.

(** C10 (as the code has it): the event [add_system_event] stores last
    has as its [data] the payload [or] the empty dict: the empty dict for
    [None] and for any other false payload, the payload itself
    otherwise. So it is never [None], and it is a dict exactly when the
    payload is false or is a dict. *)
Theorem add_system_event_data_dict (now : datetime)
    (event_type message : string) (data : JSON)
    (self : IntegrationDashboard) :
  exists stored,
    PyDict.get "data"
      (last
         (system_events
            (snd (add_system_event now event_type message data self)))
         [])
      = Some stored
    /\ stored = (if truthy data then data else JObject [])
    /\ stored <> JNull
    /\ (is_dict stored = true <->
        truthy data = false \/ is_dict data = true).
Proof.
  rewrite add_system_event_eq. cbn [snd].
  unfold set_system_events; cbn [system_events].
  rewrite last_items_last by lia.
  exists (py_or data (JObject [])). split; [reflexivity|].
  unfold py_or. destruct (truthy data) eqn:Ht.
  - split; [reflexivity|]. split.
    + intros ->. discriminate.
    + split; [now right|]. intros [H|H]; [discriminate | exact H].
  - split; [reflexivity|]. split; [discriminate|].
    split; [now left | reflexivity].
Qed.

(** ** The workflow log *)

(** C4: [add_workflow_execution] always returns; it leaves the last 1000
    of the workflow log extended with the execution, so at most 1000
    entries with the new one last, and the last 500 of the event log
    extended with one event of type [workflow_execution] that carries the
    execution's id, duration and status. From the empty store no run
    makes the workflow log longer than 1000. *)
Theorem add_workflow_execution_bounded (now : datetime)
    (execution : WorkflowExecution.t) (self : IntegrationDashboard) :
  (exists self' event,
     add_workflow_execution now execution self = (Ok tt, self')
     /\ workflow_executions self' =
        last_items 1000 (workflow_executions self ++ [execution])
     /\ List.length (workflow_executions self') <= 1000
     /\ last (workflow_executions self') execution = execution
     /\ system_events self' = last_items 500 (system_events self ++ [event])
     /\ PyDict.get "type" event = Some (JString "workflow_execution")
     /\ PyDict.get "message" event
        = Some (JString (workflow_message execution))
     /\ PyDict.get "data" event
        = Some
            (JObject
               [("workflow_id",
                 JString (WorkflowExecution.workflow_id execution));
                ("duration", JFloat (WorkflowExecution.duration execution));
                ("status", JString (WorkflowExecution.status execution))]))
  /\ forall calls,
       List.length (workflow_executions (run calls init)) <= 1000.
Proof.
  split.
  - eexists. eexists. split; [apply add_workflow_execution_eq|].
    cbn [workflow_executions system_events set_system_events
         set_workflow_executions].
    split; [reflexivity|].
    split; [apply last_items_length|].
    split; [apply last_items_last; lia|].
    split; [reflexivity|].
    repeat split.
  - intros calls. rewrite run_workflow_executions by (cbn; lia).
    apply last_items_length.
Qed.

(** C5 (as the code has it): the workflow log is the last 1000 of the
    executions recorded, each stored as it was handed in, whatever its
    duration is; so when every recorded execution has
    [duration == end_time - start_time >= 0], every stored one has. *)
Theorem stored_executions_as_recorded (calls : list Call) :
  workflow_executions (run calls init)
    = last_items 1000 (flat_map recorded calls)
  /\ (Forall duration_consistent (flat_map recorded calls) ->
      Forall duration_consistent (workflow_executions (run calls init))).
Proof.
  assert (E : workflow_executions (run calls init)
              = last_items 1000 (flat_map recorded calls)).
  { rewrite run_workflow_executions; cbn; [reflexivity | lia]. }
  split; [exact E|].
  intros H. rewrite E. rewrite Forall_forall in *.
  intros x Hx. apply H. now apply (last_items_incl 1000).
Qed.

(** C6: [GET /api/workflows] answers 200 with the dicts of the last 50
    executions recorded, oldest first, and leaves the store as it is;
    after recording executions 1 to 1001 in turn these are executions 952
    to 1001. *)
Theorem get_workflow_executions_recent (calls : list Call) :
  get_workflow_executions (run calls init)
    = (json_response
         (JArray
            (map (fun execution => JObject (execution_dict execution))
               (last_items 50 (flat_map recorded calls))))
         200%Z,
       run calls init)
  /\ List.length (last_items 50 (flat_map recorded calls)) <= 50
  /\ forall (clock : nat -> datetime)
       (numbered : nat -> WorkflowExecution.t),
       fst
         (get_workflow_executions
            (run
               (map
                  (fun i => CallAddWorkflowExecution (clock i) (numbered i))
                  (seq 1 1001))
               init))
       = json_response
           (JArray
              (map (fun i => JObject (execution_dict (numbered i)))
                 (seq 952 50)))
           200%Z.
Proof.
  assert (G : forall cs,
    last_items 50 (workflow_executions (run cs init))
    = last_items 50 (flat_map recorded cs)).
  { intros cs. rewrite run_workflow_executions by (cbn; lia).
    cbn [workflow_executions init app]. apply last_items_nested. lia. }
  split; [rewrite get_workflow_executions_eq, G; reflexivity|].
  split; [apply last_items_length|].
  intros clock numbered.
  rewrite get_workflow_executions_eq, G, flat_map_recorded_numbered.
  cbn [fst]. rewrite last_items_map, map_map.
  unfold last_items. rewrite length_seq, skipn_seq. reflexivity.
Qed.

(** ** Dictionaries *)

Lemma get_set {V : Type} (k k' : string) (v : V) (d : PyDict.t V) :
  PyDict.get k' (PyDict.set k v d) =
  if String.eqb k' k then Some v else PyDict.get k' d.
Proof.
  induction d as [|[k0 v0] rest IH]; cbn; [reflexivity|].
  destruct (String.eqb k k0) eqn:E; cbn.
  - apply String.eqb_eq in E. subst k0.
    destruct (String.eqb k' k); reflexivity.
  - rewrite IH. destruct (String.eqb k' k0) eqn:E0; [|reflexivity].
    destruct (String.eqb k' k) eqn:E1; [|reflexivity].
    apply String.eqb_eq in E0, E1. subst.
    rewrite String.eqb_refl in E. discriminate.
Qed.

Lemma get_in {V : Type} (k : string) (v : V) (d : PyDict.t V) :
  PyDict.get k d = Some v -> In (k, v) d.
Proof.
  induction d as [|[k0 v0] rest IH]; cbn; [discriminate|].
  destruct (String.eqb k k0) eqn:E.
  - apply String.eqb_eq in E. intros [= ->]. subst. now left.
  - intros H. right. now apply IH.
Qed.

Lemma in_get {V : Type} (k : string) (v : V) (d : PyDict.t V) :
  PyDict.wf d -> In (k, v) d -> PyDict.get k d = Some v.
Proof.
  unfold PyDict.wf, PyDict.keys.
  induction d as [|[k0 v0] rest IH]; cbn; [contradiction|].
  intros Hnd Hin. inversion Hnd as [|? ? Hnotin Hnd']; subst.
  destruct Hin as [[= -> ->]|Hin].
  - now rewrite String.eqb_refl.
  - destruct (String.eqb k k0) eqn:E; [|now apply IH].
    apply String.eqb_eq in E. subst k0. exfalso. apply Hnotin.
    change k with (fst (k, v)). now apply in_map.
Qed.

Lemma list_sum_ones {A : Type} (l : list A) :
  list_sum (map (fun _ => 1) l) = List.length l.
Proof.
  induction l as [|a l IH]; [reflexivity|].
  change (S (list_sum (map (fun _ => 1) l)) = S (List.length l)).
  now rewrite IH.
Qed.

(** The entries of a registry whose status is ['connected']. *)
Lemma connected_integrations_entries
    (metrics : PyDict.t IntegrationMetric.t) :
  connected_integrations metrics =
  List.length
    (filter
       (fun item => String.eqb (IntegrationMetric.status (snd item)) "connected")
       metrics).
Proof.
  unfold connected_integrations, PyDict.values. rewrite list_sum_ones.
  induction metrics as [|[k m] rest IH]; cbn; [reflexivity|].
  destruct (String.eqb (IntegrationMetric.status m) "connected"); cbn;
    now rewrite IH.
Qed.

Lemma NoDup_keys_filter {V : Type} (f : string * V -> bool)
    (d : PyDict.t V) :
  NoDup (map fst d) -> NoDup (map fst (filter f d)).
Proof.
  induction d as [|a rest IH]; cbn; [trivial|].
  intros Hnd. inversion Hnd as [|? ? Hnotin Hnd']; subst.
  destruct (f a); cbn; [|now apply IH].
  constructor; [|now apply IH].
  intros Hin. apply Hnotin.
  apply in_map_iff in Hin as [p [Hp Hin]].
  apply filter_In in Hin as [Hin _].
  rewrite <- Hp. now apply in_map.
Qed.

Lemma connected_services_entries (metrics : PyDict.t IntegrationMetric.t) :
  PyDict.wf metrics ->
  connected_services metrics
    (map fst
       (filter
          (fun item =>
             String.eqb (IntegrationMetric.status (snd item)) "connected")
          metrics)).
Proof.
  intros Hwf. split; [now apply NoDup_keys_filter|].
  intros s. rewrite in_map_iff. split.
  - intros [[k m] [Hk Hin]]. cbn in Hk. subst k.
    apply filter_In in Hin as [Hin Hst]. cbn in Hst.
    exists m. split; [now apply in_get|now apply String.eqb_eq].
  - intros [m [Hget Hst]]. exists (s, m). split; [reflexivity|].
    apply filter_In. split; [now apply get_in|].
    cbn. now apply String.eqb_eq.
Qed.

Lemma connected_services_length (metrics : PyDict.t IntegrationMetric.t)
    (names names' : list string) :
  connected_services metrics names -> connected_services metrics names' ->
  List.length names = List.length names'.
Proof.
  intros [Hnd H] [Hnd' H'].
  apply Nat.le_antisymm; apply NoDup_incl_length; trivial;
    intros s Hs; [apply H', H | apply H, H']; exact Hs.
Qed.

Lemma connected_integrations_remove (k : string) (g : IntegrationMetric.t)
    (metrics : PyDict.t IntegrationMetric.t) :
  PyDict.get k metrics = Some g ->
  String.eqb (IntegrationMetric.status g) "connected" = false ->
  connected_integrations (PyDict.remove k metrics)
  = connected_integrations metrics.
Proof.
  rewrite !connected_integrations_entries.
  induction metrics as [|[k0 m0] rest IH]; cbn; [discriminate|].
  destruct (String.eqb k k0) eqn:E.
  - intros [= ->] Hst. now rewrite Hst.
  - intros Hget Hst. cbn.
    destruct (String.eqb (IntegrationMetric.status m0) "connected"); cbn;
      now rewrite IH.
Qed.

(** ** The registry *)

(** C7: on a registry that holds each service once, [GET /api/status]
    answers 200 with [connected_integrations] the number of services
    whose status is ['connected'] (and [total_integrations] the number of
    services); a github entry of status ['error'] is not among those
    counted, and the count is what it is without that entry. *)
Theorem get_system_status_connected (now : datetime)
    (scs_status n8n_status : JSON) (self : IntegrationDashboard) :
  PyDict.wf (integration_metrics self) ->
  (exists body,
     get_system_status now scs_status n8n_status self
       = (json_response (JObject body) 200%Z, self)
     /\ PyDict.get "total_integrations" body
        = Some (JInt (Z.of_nat (PyDict.len (integration_metrics self))))
     /\ forall names,
          connected_services (integration_metrics self) names ->
          PyDict.get "connected_integrations" body
          = Some (JInt (Z.of_nat (List.length names))))
  /\ (exists names, connected_services (integration_metrics self) names)
  /\ forall g,
       PyDict.get "github" (integration_metrics self) = Some g ->
       IntegrationMetric.status g = "error" ->
       (forall names,
          connected_services (integration_metrics self) names ->
          ~ In "github" names)
       /\ connected_integrations
            (PyDict.remove "github" (integration_metrics self))
          = connected_integrations (integration_metrics self).
Proof.
  intros Hwf. split; [|split].
  - eexists. split; [reflexivity|]. split; [reflexivity|].
    intros names Hnames. cbn. do 3 f_equal.
    rewrite connected_integrations_entries.
    rewrite <- (length_map fst).
    apply (connected_services_length (integration_metrics self));
      [now apply connected_services_entries | exact Hnames].
  - eexists. now apply connected_services_entries.
  - intros g Hg Herr. split.
    + intros names [_ H] Hin. apply H in Hin as [m [Hm Hst]].
      rewrite Hg in Hm. injection Hm as <-. rewrite Herr in Hst.
      discriminate.
    + apply (connected_integrations_remove _ g); [exact Hg|].
      now rewrite Herr.
Qed.

(** ** Floats *)

Lemma Qltb_lt (x y : Q) : Qltb x y = true -> (x < y)%Q.
Proof.
  unfold Qltb. destruct (x ?= y)%Q eqn:E; try discriminate.
  intros _. now apply Qlt_alt.
Qed.

Lemma py_max_lower (a b : Q) : (a <= py_max a b)%Q.
Proof.
  unfold py_max. destruct (Qltb a b) eqn:E.
  - now apply Qlt_le_weak, Qltb_lt.
  - apply Qle_refl.
Qed.

Lemma py_min_upper (a b : Q) : (py_min a b <= a)%Q.
Proof.
  unfold py_min. destruct (Qltb b a) eqn:E.
  - now apply Qlt_le_weak, Qltb_lt.
  - apply Qle_refl.
Qed.

Lemma py_max_min_upper (a c x : Q) :
  (a <= c)%Q -> (py_max a (py_min c x) <= c)%Q.
Proof.
  intros H. unfold py_max. destruct (Qltb a (py_min c x)); [|exact H].
  apply py_min_upper.
Qed.

Lemma Qle_90_100 : (90 <= 100)%Q.
Proof. apply Qle_bool_iff. reflexivity. Qed.

Lemma simulate_metric_ranges (u1 u2 : Q) (metric : IntegrationMetric.t) :
  in_simulated_ranges (simulate_metric u1 u2 metric).
Proof.
  unfold in_simulated_ranges, simulate_metric.
  cbn [IntegrationMetric.response_time IntegrationMetric.success_rate].
  split; [apply py_max_lower|].
  split; [apply py_max_lower|].
  apply py_max_min_upper, Qle_90_100.
Qed.

(** ** The simulation loop and the initialization *)

Lemma simulate_loop_keys (rand : nat -> Q)
    (items : PyDict.t IntegrationMetric.t) (i : nat) :
  PyDict.keys (simulate_loop rand i items) = PyDict.keys items.
Proof.
  revert i. induction items as [|[k m] rest IH]; intros i; cbn;
    [reflexivity|].
  f_equal. apply IH.
Qed.

Lemma simulate_loop_values (rand : nat -> Q)
    (items : PyDict.t IntegrationMetric.t) (i : nat) :
  Forall in_simulated_ranges (PyDict.values (simulate_loop rand i items)).
Proof.
  revert i. induction items as [|[k m] rest IH]; intros i;
    cbn -[Nat.mul]; constructor.
  - apply simulate_metric_ranges.
  - apply IH.
Qed.

Lemma simulate_loop_get (rand : nat -> Q) (s : string)
    (items : PyDict.t IntegrationMetric.t) (m : IntegrationMetric.t)
    (i : nat) :
  PyDict.get s items = Some m ->
  exists u1 u2,
    PyDict.get s (simulate_loop rand i items)
    = Some (simulate_metric u1 u2 m).
Proof.
  revert i. induction items as [|[k m0] rest IH]; intros i;
    cbn -[Nat.mul]; [discriminate|].
  destruct (String.eqb s k).
  - intros [= ->]. eauto.
  - apply IH.
Qed.

Lemma tracked_initialize (clock : nat -> datetime)
    (metrics : PyDict.t IntegrationMetric.t) :
  tracked (initialize_loop clock 0 default_integrations metrics).
Proof.
  unfold tracked, default_integrations. cbn -[Nat.mul PyDict.set].
  repeat constructor;
    (eexists; split;
     [rewrite !get_set; cbn -[Nat.mul]; reflexivity
     |cbn; repeat split;
      try (apply Qle_bool_iff; reflexivity)]).
Qed.

Lemma tracked_simulate (rand : nat -> Q)
    (metrics : PyDict.t IntegrationMetric.t) :
  tracked metrics -> tracked (simulate_loop rand 0 metrics).
Proof.
  unfold tracked. apply Forall_impl.
  intros s (m & Hget & Hs & Hst & Ht & He & _ & _ & Hu).
  destruct (simulate_loop_get rand s metrics m 0 Hget) as (u1 & u2 & H).
  exists (simulate_metric u1 u2 m). split; [exact H|].
  destruct (simulate_metric_ranges u1 u2 m) as (_ & Hlo & Hhi).
  repeat split; assumption.
Qed.

Lemma tracked_exec (c : Call) (self : IntegrationDashboard) :
  tracked (integration_metrics self) ->
  tracked (integration_metrics (exec c self)).
Proof.
  intros H. destruct c as [now ty msg data|now request|now e|clock|rand];
    cbn [exec].
  - now rewrite add_system_event_eq.
  - destruct (request_json request) as [v|msg] eqn:Hr.
    + destruct (is_dict v) eqn:Hv.
      * destruct v; try discriminate.
        now rewrite (handle_webhook_dict _ _ _ _ Hr).
      * now rewrite (handle_webhook_not_dict _ _ _ _ Hr Hv).
    + now rewrite (handle_webhook_raise _ _ _ _ Hr).
  - now rewrite add_workflow_execution_eq.
  - apply tracked_initialize.
  - now apply tracked_simulate.
Qed.

Lemma tracked_run (calls : list Call) (self : IntegrationDashboard) :
  tracked (integration_metrics self) ->
  tracked (integration_metrics (run calls self)).
Proof.
  revert self. induction calls as [|c calls IH]; intros self H;
    [exact H|].
  apply IH, tracked_exec, H.
Qed.

(** C8: [_initialize_metrics] always returns, and leaves for every default
    integration an entry under its name with status ['unknown'], no
    request and no error counted, a response time of 0, and a success
    rate and an uptime of 100; whatever is called afterwards, every
    default integration keeps an entry of unknown status, and right
    after initialization of the empty store [GET /api/metrics] answers
    with exactly the default integrations. *)
Theorem initialize_metrics_seeds (clock : nat -> datetime)
    (self : IntegrationDashboard) :
  exists self',
    _initialize_metrics clock self = (Ok tt, self')
    /\ Forall
         (fun s =>
            exists now_success now_error m,
              PyDict.get s (integration_metrics self') = Some m
              /\ m = seed_metric s now_success now_error
              /\ IntegrationMetric.service m = s
              /\ IntegrationMetric.status m = "unknown"
              /\ (IntegrationMetric.response_time m == 0)%Q
              /\ (IntegrationMetric.success_rate m == 100)%Q
              /\ IntegrationMetric.total_requests m = 0%Z
              /\ IntegrationMetric.error_count m = 0%Z
              /\ (IntegrationMetric.uptime_percentage m == 100)%Q)
         default_integrations
    /\ (forall calls, tracked (integration_metrics (run calls self')))
    /\ exists body,
         fst (get_integration_metrics (snd (_initialize_metrics clock init)))
         = json_response (JObject body) 200%Z
         /\ PyDict.keys body = default_integrations.
Proof.
  eexists. split; [reflexivity|].
  cbn [integration_metrics set_integration_metrics].
  split; [|split].
  - unfold default_integrations. cbn -[Nat.mul PyDict.set].
    repeat constructor;
      (do 3 eexists; split;
       [rewrite !get_set; cbn -[Nat.mul]; reflexivity
       |repeat split; reflexivity]).
  - intros calls. apply tracked_run. cbn. apply tracked_initialize.
  - eexists. split; reflexivity.
Qed.

(** C9: one turn of the simulation loop always returns, keeps the
    services of the registry, and leaves every one of them, whatever its
    metric was and whatever was drawn, with a response time of at least
    10 and a success rate between 90 and 100, hence a response time that
    is not negative and a success rate between 0 and 100. *)
Theorem simulate_metrics_ranges (rand : nat -> Q)
    (self : IntegrationDashboard) :
  exists self',
    simulate_metrics rand self = (Ok tt, self')
    /\ PyDict.keys (integration_metrics self')
       = PyDict.keys (integration_metrics self)
    /\ Forall
         (fun m =>
            (10 <= IntegrationMetric.response_time m)%Q
            /\ (90 <= IntegrationMetric.success_rate m)%Q
            /\ (IntegrationMetric.success_rate m <= 100)%Q
            /\ (0 <= IntegrationMetric.response_time m)%Q
            /\ (0 <= IntegrationMetric.success_rate m)%Q)
         (PyDict.values (integration_metrics self')).
Proof.
  eexists. split; [reflexivity|].
  cbn [integration_metrics set_integration_metrics].
  split; [apply simulate_loop_keys|].
  eapply Forall_impl; [|apply simulate_loop_values].
  intros m (Hrt & Hlo & Hhi). repeat split; try assumption.
  - eapply Qle_trans; [|exact Hrt]. apply Qle_bool_iff. reflexivity.
  - eapply Qle_trans; [|exact Hlo]. apply Qle_bool_iff. reflexivity.
Qed.

(** C2 (as the code has it): the dashboard has no upsert; a metric is
    seeded by [_initialize_metrics] and then only changed by the
    simulation loop. So in every store reached after initialization each
    default integration has no request and no error counted and a
    success rate, set without any division, between 90 and 100; right
    after initialization it is 100. *)
Theorem success_rate_after_initialization (clock : nat -> datetime)
    (calls : list Call) :
  Forall
    (fun s =>
       exists m,
         PyDict.get s
           (integration_metrics (run (CallInitializeMetrics clock :: calls) init))
         = Some m
         /\ IntegrationMetric.total_requests m = 0%Z
         /\ IntegrationMetric.error_count m = 0%Z
         /\ (90 <= IntegrationMetric.success_rate m)%Q
         /\ (IntegrationMetric.success_rate m <= 100)%Q)
    default_integrations
  /\ Forall
       (fun s =>
          exists m,
            PyDict.get s
              (integration_metrics (run [CallInitializeMetrics clock] init))
            = Some m
            /\ IntegrationMetric.total_requests m = 0%Z
            /\ IntegrationMetric.error_count m = 0%Z
            /\ (IntegrationMetric.success_rate m == 100)%Q)
       default_integrations.
Proof.
  split.
  - assert (H : tracked
      (integration_metrics (run (CallInitializeMetrics clock :: calls) init))).
    { cbn [run fold_left].
      change (fold_left (fun self c => exec c self) calls ?s)
        with (run calls s).
      apply tracked_run.
      exact (tracked_initialize clock (integration_metrics init)). }
    revert H. unfold tracked. apply Forall_impl.
    intros s (m & Hget & _ & _ & Ht & He & Hlo & Hhi & _).
    exists m. repeat split; assumption.
  - unfold default_integrations. cbn.
    repeat constructor; (eexists; split; [reflexivity|repeat split]).
Qed.

(** ** More on the handlers and the registry *)



Lemma set_fresh {V : Type} (k : string) (v : V) (d : PyDict.t V) :
  ~ In k (PyDict.keys d) -> PyDict.set k v d = d ++ [(k, v)].
Proof.
  induction d as [|[k0 v0] rest IH]; cbn; [reflexivity|].
  intros H. destruct (String.eqb k k0) eqn:E.
  - apply String.eqb_eq in E. subst. exfalso. apply H. now left.
  - rewrite IH; [reflexivity|]. intros Hin. apply H. now right.
Qed.

Lemma fold_set_fresh {V W : Type} (f : V -> W) (l : PyDict.t V)
    (acc : PyDict.t W) :
  NoDup (PyDict.keys l) ->
  (forall k, In k (PyDict.keys l) -> ~ In k (PyDict.keys acc)) ->
  fold_left (fun a item => PyDict.set (fst item) (f (snd item)) a) l acc
  = acc ++ map (fun item => (fst item, f (snd item))) l.
Proof.
  revert acc. induction l as [|[k v] rest IH]; intros acc Hnd Hfresh; cbn.
  - now rewrite app_nil_r.
  - cbn in Hnd. inversion Hnd as [|? ? Hnotin Hnd']; subst.
    rewrite set_fresh by (apply Hfresh; now left).
    rewrite IH; [now rewrite <- app_assoc | exact Hnd' |].
    intros k' Hin. unfold PyDict.keys. rewrite map_app, in_app_iff.
    cbn. intros [Hacc|[->|[]]].
    + apply (Hfresh k'); [now right | exact Hacc].
    + now apply Hnotin.
Qed.

(** X2: on a registry that holds each service once, [GET /api/metrics]
    answers 200 with one entry for each service, in the order of the
    registry, that carries the nine fields of its metric, the two times
    in ISO form; the store is left as it is. *)
Theorem get_integration_metrics_entries (self : IntegrationDashboard) :
  PyDict.wf (integration_metrics self) ->
  get_integration_metrics self
  = (json_response
       (JObject
          (map (fun item => (fst item, JObject (metric_dict (snd item))))
             (integration_metrics self)))
       200%Z,
     self).
Proof.
  intros Hwf.
  unfold get_integration_metrics, try_except, bind, read, ret.
  cbn [fst snd]. do 3 f_equal.
  rewrite (fold_set_fresh (fun m => JObject (metric_dict m)));
    [reflexivity | exact Hwf | intros k _ []].
Qed.

Lemma set_keys_in {V : Type} (k : string) (v : V) (d : PyDict.t V) :
  In k (PyDict.keys d) -> PyDict.keys (PyDict.set k v d) = PyDict.keys d.
Proof.
  induction d as [|[k0 v0] rest IH]; cbn; [contradiction|].
  destruct (String.eqb k k0) eqn:E; cbn; [reflexivity|].
  intros [H|H].
  - subst. rewrite String.eqb_refl in E. discriminate.
  - f_equal. now apply IH.
Qed.

Lemma set_values_Forall {V : Type} (P : V -> Prop) (k : string) (v : V)
    (d : PyDict.t V) :
  P v -> Forall P (PyDict.values d) ->
  Forall P (PyDict.values (PyDict.set k v d)).
Proof.
  intros Hv. induction d as [|[k0 v0] rest IH]; cbn; intros H.
  - now constructor.
  - inversion H; subst.
    destruct (String.eqb k k0); cbn; constructor; auto.
Qed.

Lemma initialize_loop_keys (clock : nat -> datetime) (names : list string)
    (i : nat) (d : PyDict.t IntegrationMetric.t) :
  incl names (PyDict.keys d) ->
  PyDict.keys (initialize_loop clock i names d) = PyDict.keys d.
Proof.
  revert i d. induction names as [|n names IH]; intros i d H;
    cbn [initialize_loop]; [reflexivity|].
  assert (Hn : In n (PyDict.keys d)) by (apply H; now left).
  rewrite IH; [now apply set_keys_in|].
  rewrite set_keys_in by exact Hn.
  intros x Hx. apply H. now right.
Qed.

Lemma initialize_loop_unknown (clock : nat -> datetime)
    (names : list string) (i : nat) (d : PyDict.t IntegrationMetric.t) :
  Forall (fun m => IntegrationMetric.status m = "unknown")
    (PyDict.values d) ->
  Forall (fun m => IntegrationMetric.status m = "unknown")
    (PyDict.values (initialize_loop clock i names d)).
Proof.
  revert i d. induction names as [|n names IH]; intros i d H;
    cbn [initialize_loop]; [exact H|].
  apply IH. now apply set_values_Forall.
Qed.

Lemma simulate_loop_unknown (rand : nat -> Q)
    (items : PyDict.t IntegrationMetric.t) (i : nat) :
  Forall (fun m => IntegrationMetric.status m = "unknown")
    (PyDict.values items) ->
  Forall (fun m => IntegrationMetric.status m = "unknown")
    (PyDict.values (simulate_loop rand i items)).
Proof.
  revert i. induction items as [|[k m] rest IH]; intros i H;
    cbn -[Nat.mul]; [constructor|].
  inversion H; subst. constructor; [assumption | now apply IH].
Qed.

(** The registry of a started dashboard: the default integrations, all
    of unknown status. *)
Lemma started_exec (c : Call) (self : IntegrationDashboard) :
  PyDict.keys (integration_metrics self) = default_integrations
  /\ Forall (fun m => IntegrationMetric.status m = "unknown")
       (PyDict.values (integration_metrics self)) ->
  PyDict.keys (integration_metrics (exec c self)) = default_integrations
  /\ Forall (fun m => IntegrationMetric.status m = "unknown")
       (PyDict.values (integration_metrics (exec c self))).
Proof.
  intros [Hk Hu].
  destruct c as [now ty msg data|now request|now e|clock|rand]; cbn [exec].
  - now rewrite add_system_event_eq.
  - destruct (request_json request) as [v|msg] eqn:Hr.
    + destruct (is_dict v) eqn:Hv.
      * destruct v; try discriminate.
        now rewrite (handle_webhook_dict _ _ _ _ Hr).
      * now rewrite (handle_webhook_not_dict _ _ _ _ Hr Hv).
    + now rewrite (handle_webhook_raise _ _ _ _ Hr).
  - now rewrite add_workflow_execution_eq.
  - cbn [_initialize_metrics modify snd integration_metrics
         set_integration_metrics].
    split.
    + rewrite initialize_loop_keys; [exact Hk|].
      rewrite Hk. apply incl_refl.
    + now apply initialize_loop_unknown.
  - cbn [simulate_metrics modify snd integration_metrics
         set_integration_metrics].
    split.
    + now rewrite simulate_loop_keys.
    + now apply simulate_loop_unknown.
Qed.

Lemma started_run (calls : list Call) (self : IntegrationDashboard) :
  PyDict.keys (integration_metrics self) = default_integrations
  /\ Forall (fun m => IntegrationMetric.status m = "unknown")
       (PyDict.values (integration_metrics self)) ->
  PyDict.keys (integration_metrics (run calls self)) = default_integrations
  /\ Forall (fun m => IntegrationMetric.status m = "unknown")
       (PyDict.values (integration_metrics (run calls self))).
Proof.
  revert self. induction calls as [|c calls IH]; intros self H;
    [exact H|].
  apply IH, started_exec, H.
Qed.

Lemma filter_none {A : Type} (f : A -> bool) (l : list A) :
  Forall (fun a => f a = false) l -> filter f l = [].
Proof.
  induction l as [|a l IH]; cbn; intros H; [reflexivity|].
  inversion H as [|? ? Ha Hl]; subst. rewrite Ha. now apply IH.
Qed.

(** X3: the dashboard never sets a status. Once the metrics are
    initialized, whatever is called afterwards, [GET /api/status] reports
    6 integrations in all and 0 connected ones. *)
Theorem started_dashboard_reports_none_connected (clock : nat -> datetime)
    (calls : list Call) (now : datetime) (scs_status n8n_status : JSON) :
  exists body,
    fst (get_system_status now scs_status n8n_status
           (run (CallInitializeMetrics clock :: calls) init))
    = json_response (JObject body) 200%Z
    /\ PyDict.get "total_integrations" body = Some (JInt 6)
    /\ PyDict.get "connected_integrations" body = Some (JInt 0)
    /\ PyDict.keys
         (integration_metrics
            (run (CallInitializeMetrics clock :: calls) init))
       = default_integrations.
Proof.
  assert (H : PyDict.keys
                (integration_metrics
                   (run (CallInitializeMetrics clock :: calls) init))
              = default_integrations
              /\ Forall (fun m => IntegrationMetric.status m = "unknown")
                   (PyDict.values
                      (integration_metrics
                         (run (CallInitializeMetrics clock :: calls) init)))).
  { cbn [run fold_left].
    change (fold_left (fun self c => exec c self) calls ?s)
      with (run calls s).
    apply started_run. split; [reflexivity|].
    cbn. repeat constructor. }
  destruct H as [Hk Hu].
  eexists. split; [reflexivity|].
  cbn [PyDict.get String.eqb Ascii.eqb Bool.eqb].
  split; [|split; [|exact Hk]].
  - do 3 f_equal. unfold PyDict.len, PyDict.keys in *.
    rewrite <- (length_map fst), Hk. reflexivity.
  - do 3 f_equal. unfold connected_integrations.
    rewrite filter_none; [reflexivity|].
    revert Hu. apply Forall_impl. intros m ->. reflexivity.
Qed.



Lemma emitted_shaped (c : Call) :
  is_webhook c = false -> Forall event_shaped (emitted c).
Proof.
  destruct c as [now ty msg data|now request|now e|clock|rand];
    cbn [emitted is_webhook]; intros H; try discriminate;
    repeat constructor; eexists; reflexivity.
Qed.

(** X5: after any run from the empty store that has no webhook call,
    every event of the log, appended by [add_system_event] alone or from
    [add_workflow_execution], has a type, a message and a time stamp that
    are strings, and a payload. *)
Theorem system_events_shaped (calls : list Call) :
  Forall (fun c => is_webhook c = false) calls ->
  Forall event_shaped (system_events (run calls init)).
Proof.
  intros Hcalls.
  rewrite run_system_events by (cbn; lia).
  cbn [system_events init app].
  apply Forall_forall. intros event Hin.
  apply (last_items_incl 500) in Hin.
  apply in_flat_map in Hin as [c [Hc Hin]].
  rewrite Forall_forall in Hcalls.
  pose proof (emitted_shaped c (Hcalls c Hc)) as H.
  rewrite Forall_forall in H. now apply H.
Qed.

Lemma Qltb_ge (x y : Q) : Qltb x y = false -> (y <= x)%Q.
Proof.
  unfold Qltb. destruct (x ?= y)%Q eqn:E; try discriminate; intros _.
  - apply Qeq_alt in E. rewrite E. apply Qle_refl.
  - apply Qgt_alt in E. now apply Qlt_le_weak.
Qed.

(** X7: the first turn of the simulation after the initialization, with
    draws in [0, 1), leaves every default integration with a response
    time of exactly 10: the seed 0 moved by less than 5 is below the
    floor of the loop. *)
Theorem first_turn_response_time (clock : nat -> datetime)
    (rand : nat -> Q) :
  (forall k, unit_draw (rand k)) ->
  Forall
    (fun s =>
       exists m,
         PyDict.get s
           (integration_metrics
              (run [CallInitializeMetrics clock; CallSimulateMetrics rand]
                 init))
         = Some m
         /\ (IntegrationMetric.response_time m == 10)%Q)
    default_integrations.
Proof.
  intros Hrand.
  assert (Hten : forall k, (py_max 10 (0 + uniform (-5) 5 (rand k)) == 10)%Q).
  { intros k. destruct (Hrand k) as [H0 H1].
    unfold py_max, uniform.
    destruct (Qltb 10 (0 + (-5 + (5 - -5) * rand k))) eqn:E;
      [apply Qltb_lt in E; lra | reflexivity]. }
  unfold default_integrations.
  repeat constructor; (eexists; split; [reflexivity | apply Hten]).
Qed.

(** X8: [_get_n8n_status] never raises and leaves the store as it is. Its
    result is a dict whose status is ['connected'] or ['error']; it is
    ['connected'] exactly when n8n answers 200 with a JSON object whose
    [data] (an empty list when missing) has a length, and the result is
    then that status with that length as [active_workflows]. *)
Theorem get_n8n_status_outcome (n8n_url : string)
    (n8n_api_key : option string) (net : Network)
    (self : IntegrationDashboard) :
  let request :=
    session_get (n8n_url ++ "/rest/active")%string
      [("X-N8N-API-KEY", optional_str n8n_api_key)] in
  let outcome := _get_n8n_status n8n_url n8n_api_key net self in
  snd outcome = self
  /\ exists body,
       fst outcome = JObject body
       /\ (PyDict.get "status" body = Some (JString "connected")
           \/ PyDict.get "status" body = Some (JString "error"))
       /\ (PyDict.get "status" body = Some (JString "connected") <->
           exists d count,
             json_of_answer 200 (net request) = Some (JObject d)
             /\ py_len str_len (get_default "data" (JArray []) d)
                = Ok count)
       /\ (forall d count,
             json_of_answer 200 (net request) = Some (JObject d) ->
             py_len str_len (get_default "data" (JArray []) d) = Ok count ->
             body = [("status", JString "connected");
                     ("active_workflows", JInt (Z.of_nat count))]).
Proof.
  cbn zeta.
  unfold _get_n8n_status, try_except, bind, lift, ret, json_of_answer.
  destruct (net _) as [response|e]; cbn [fst snd].
  2:{ split; [reflexivity|]. eexists. split; [reflexivity|].
      split; [now right|]. split; [split; [discriminate|]|].
      - intros (d & c & H & _). discriminate.
      - intros d c H. discriminate. }
  destruct (Z.eqb (http_status response) 200); cbn [fst snd].
  2:{ split; [reflexivity|]. eexists. split; [reflexivity|].
      split; [now right|]. split; [split; [discriminate|]|].
      - intros (d & c & H & _). discriminate.
      - intros d c H. discriminate. }
  destruct (http_json response) as [data|e]; cbn [fst snd].
  2:{ split; [reflexivity|]. eexists. split; [reflexivity|].
      split; [now right|]. split; [split; [discriminate|]|].
      - intros (d & c & H & _). discriminate.
      - intros d c H. discriminate. }
  destruct (call_get data "data" (JArray [])) as [workflows|e] eqn:Hget;
    cbn [fst snd].
  2:{ split; [reflexivity|]. eexists. split; [reflexivity|].
      split; [now right|]. split; [split; [discriminate|]|].
      - intros (d & c & [= ->] & _). discriminate.
      - intros d c [= ->]. discriminate. }
  destruct (py_len str_len workflows) as [count|e] eqn:Hlen; cbn [fst snd].
  2:{ split; [reflexivity|]. eexists. split; [reflexivity|].
      split; [now right|]. split; [split; [discriminate|]|].
      - intros (d & c & [= ->] & Hl). cbn in Hget. injection Hget as <-.
        rewrite Hl in Hlen. discriminate.
      - intros d c [= ->] Hl. cbn in Hget. injection Hget as <-.
        rewrite Hl in Hlen. discriminate. }
  split; [reflexivity|]. eexists. split; [reflexivity|].
  split; [now left|]. split; [split; [|reflexivity]|].
  - intros _. destruct data; try discriminate.
    cbn in Hget. injection Hget as <-.
    exists d, count. split; [reflexivity | exact Hlen].
  - intros d c [= ->] Hl. cbn in Hget. injection Hget as <-.
    rewrite Hl in Hlen. injection Hlen as <-. reflexivity.
Qed.

(** X9: [_get_scs_status] never raises and leaves the store as it is;
    its result is the JSON body itself, whatever it is, when the server
    answers 200 with JSON, and otherwise a dict of status ['error'] with
    the HTTP status or the message of the exception. *)
Theorem get_scs_status_outcome (scs_url : string)
    (scs_api_key : option string) (net : Network)
    (self : IntegrationDashboard) :
  let request :=
    session_get (scs_url ++ "/health")%string
      [("X-API-Key", optional_str scs_api_key)] in
  let outcome := _get_scs_status scs_url scs_api_key net self in
  snd outcome = self
  /\ match net request with
     | Ok response =>
         if Z.eqb (http_status response) 200
         then
           match http_json response with
           | Ok body => fst outcome = body
           | Raise e =>
               fst outcome
               = JObject [("status", JString "error"); ("error", JString e)]
           end
         else
           fst outcome
           = JObject
               [("status", JString "error");
                ("error",
                 JString
                   ("HTTP " ++ py_str (JInt (http_status response)))%string)]
     | Raise e =>
         fst outcome
         = JObject [("status", JString "error"); ("error", JString e)]
     end.
Proof.
  cbn zeta. unfold _get_scs_status, try_except, bind, lift, ret.
  destruct (net _) as [response|e]; cbn [fst snd];
    [|split; reflexivity].
  destruct (Z.eqb (http_status response) 200); cbn [fst snd];
    [|split; reflexivity].
  destruct (http_json response); split; reflexivity.
Qed.

End Dashboard.

(** ** Examples *)

Example webhook_list_body_answers_500 :
  handle_webhook epoch_isoformat repr_unknown 0%Q
    {| request_json := Ok (JArray [JInt 1]) |} init
  = (json_response
       (JObject
          [("error", JString "'list' object has no attribute 'get'")])
       500%Z,
     init).
Proof. reflexivity. Qed.

Example status_counts_notion_only :
  PyDict.get "connected_integrations"
    (match
       resp_body
         (fst (get_system_status epoch_isoformat 0%Q JNull JNull github_down))
     with
     | JObject body => body
     | _ => []
     end)
  = Some (JInt 1).
Proof. reflexivity. Qed.

(** ** The claims at concrete inputs *)

(** [stored_executions_as_recorded] on the recording of one execution
    whose duration is its end time minus its start time. *)
Lemma stored_executions_as_recorded_witness :
  Forall duration_consistent
    (flat_map recorded [CallAddWorkflowExecution 0%Q timed_execution])
  /\ workflow_executions
       (run epoch_isoformat repr_unknown
          [CallAddWorkflowExecution 0%Q timed_execution] init)
     = last_items 1000
         (flat_map recorded [CallAddWorkflowExecution 0%Q timed_execution])
  /\ Forall duration_consistent
       (workflow_executions
          (run epoch_isoformat repr_unknown
             [CallAddWorkflowExecution 0%Q timed_execution] init)).
Proof.
  assert (H : Forall duration_consistent
                (flat_map recorded
                   [CallAddWorkflowExecution 0%Q timed_execution])).
  { constructor; [|constructor].
    split; [reflexivity | vm_compute; discriminate]. }
  destruct (stored_executions_as_recorded epoch_isoformat repr_unknown
              [CallAddWorkflowExecution 0%Q timed_execution]) as [E F].
  split; [exact H|]. split; [exact E | exact (F H)].
Defined.

(** [get_system_status_connected] on a registry with github in error and
    notion connected. *)
Lemma get_system_status_connected_witness :
  PyDict.wf (integration_metrics github_down)
  /\ connected_integrations
       (PyDict.remove "github" (integration_metrics github_down))
     = connected_integrations (integration_metrics github_down).
Proof.
  assert (Hwf : PyDict.wf (integration_metrics github_down)).
  { unfold PyDict.wf. cbn. repeat constructor; cbn; intuition discriminate. }
  split; [exact Hwf|].
  destruct (get_system_status_connected epoch_isoformat 0%Q JNull JNull
              github_down Hwf) as (_ & _ & H).
  destruct (H (metric_with_status "github" "error") eq_refl eq_refl)
    as [_ E].
  exact E.
Defined.

(** [appended_events_bounded_fifo] on an event and a workflow
    execution. *)
Lemma appended_events_bounded_fifo_witness :
  Forall (fun c => is_webhook c = false)
    [CallAddSystemEvent 0%Q "health_check" "ok" JNull;
     CallAddWorkflowExecution 0%Q timed_execution]
  /\ List.length
       (system_events
          (run epoch_isoformat repr_unknown
             [CallAddSystemEvent 0%Q "health_check" "ok" JNull;
              CallAddWorkflowExecution 0%Q timed_execution]
             init))
     <= 500.
Proof.
  assert (H : Forall (fun c => is_webhook c = false)
                [CallAddSystemEvent 0%Q "health_check" "ok" JNull;
                 CallAddWorkflowExecution 0%Q timed_execution])
    by (repeat constructor).
  split; [exact H|].
  exact (proj1 (appended_events_bounded_fifo epoch_isoformat repr_unknown
                  _ H)).
Defined.

(** [system_events_shaped] on an event and a workflow execution. *)
Lemma system_events_shaped_witness :
  Forall (fun c => is_webhook c = false)
    [CallAddSystemEvent 0%Q "health_check" "ok" JNull;
     CallAddWorkflowExecution 0%Q timed_execution]
  /\ Forall event_shaped
       (system_events
          (run epoch_isoformat repr_unknown
             [CallAddSystemEvent 0%Q "health_check" "ok" JNull;
              CallAddWorkflowExecution 0%Q timed_execution]
             init)).
Proof.
  assert (H : Forall (fun c => is_webhook c = false)
                [CallAddSystemEvent 0%Q "health_check" "ok" JNull;
                 CallAddWorkflowExecution 0%Q timed_execution])
    by (repeat constructor).
  split; [exact H|].
  exact (system_events_shaped epoch_isoformat repr_unknown _ H).
Defined.

(** Against C10: a payload that is true and not a dict, the list [[1]],
    is stored as it is, so it is not so that every call stores a dict. *)
Lemma truthy_list_payload_is_stored :
  ~ (forall now event_type message data self,
       exists stored,
         PyDict.get "data"
           (last
              (system_events
                 (snd (add_system_event epoch_isoformat now event_type
                         message data self)))
              [])
         = Some stored
         /\ is_dict stored = true).
Proof.
  intros H.
  destruct (H 0%Q "health_check" "ok" (JArray [JInt 1]) init)
    as (stored & Hget & Hdict).
  vm_compute in Hget. injection Hget as <-. discriminate.
Qed.

(** Against C2: one turn of the simulation loop that draws 0 leaves
    github with no error counted and a success rate of 99, so it is not
    so that updates without a failure keep the success rate at 100. *)
Lemma simulation_turn_lowers_success_rate :
  ~ (forall (clock : nat -> datetime) (rands : list (nat -> Q)),
       Forall
         (fun s =>
            exists m,
              PyDict.get s
                (integration_metrics
                   (run epoch_isoformat repr_unknown
                      (CallInitializeMetrics clock
                         :: map CallSimulateMetrics rands)
                      init))
              = Some m
              /\ IntegrationMetric.error_count m = 0%Z
              /\ (IntegrationMetric.success_rate m == 100)%Q)
         default_integrations).
Proof.
  intros H.
  specialize (H (fun _ => 0%Q) [fun _ => 0%Q]).
  rewrite Forall_forall in H.
  destruct (H "github") as (m & Hget & _ & Hrate).
  - cbn. tauto.
  - vm_compute in Hget. injection Hget as <-.
    vm_compute in Hrate. discriminate.
Qed.

(** Against C3: a body that does not parse is answered with status 500,
    which is not a client error. *)
Lemma unparsable_webhook_answers_500 :
  resp_status
    (fst (handle_webhook epoch_isoformat repr_unknown 0%Q
            unparsable_request init))
  = 500%Z
  /\ ~ (400 <= resp_status
                 (fst (handle_webhook epoch_isoformat repr_unknown 0%Q
                         unparsable_request init))
          < 500)%Z.
Proof.
  split; [reflexivity|]. cbn. lia.
Qed.

(** Against C5: an execution recorded with a duration of -3 between start
    time 0 and end time 10 is stored as it is. *)
Lemma skewed_execution_is_stored :
  ~ (forall calls,
       Forall duration_consistent
         (workflow_executions
            (run epoch_isoformat repr_unknown calls init))).
Proof.
  intros H.
  specialize (H [CallAddWorkflowExecution 0%Q skewed_execution]).
  change (Forall duration_consistent [skewed_execution]) in H.
  inversion H as [|? ? [Heq _] _]. vm_compute in Heq. discriminate.
Qed.

(** ** The hub *)

Section HubProperties.

Variable isoformat : datetime -> string.
Variable py_str : JSON -> string.
Variable str_len : string -> nat.
Variable strftime : datetime -> string.
Variable json_dumps : JSON -> string.
Variable py_hash : string -> Z.
Variable unbound_local : string -> string.
Variable environ : Environ.

Local Open Scope list_scope.

Lemma create_scs_session_eq (net : Network) (purpose : string)
    (metadata : JSON) (self : Hub.t) :
  Hub._create_scs_session py_str net purpose metadata self
  = (Ok
       (match
          json_of_answer 200
            (net
               (session_post (Hub.scs_url self ++ "/api/sessions")%string
                  (JObject
                     [("purpose", JString purpose);
                      ("metadata", metadata);
                      ("auto_generate_session_id", JBool true)])
                  (Hub.scs_headers self)))
        with
        | Some body => body
        | None => JObject []
        end),
     self).
Proof.
  unfold Hub._create_scs_session, se_try, se_bind, se_get, se_lift,
    se_raise, se_ret, json_of_answer.
  destruct (net _) as [response|e]; [|reflexivity].
  destruct (Z.eqb (http_status response) 200); [|reflexivity].
  destruct (http_json response); reflexivity.
Qed.

(** What a try body that ends in one assignment leaves. *)
Lemma setitem_eq (name : string) (integration : IntegrationStatus.t)
    (self : Hub.t) :
  Hub.setitem name integration self
  = (Ok tt,
     Hub.set_integrations
       (PyDict.set name integration (Hub.integrations self)) self).
Proof. reflexivity. Qed.

(** Closes the facts about the status of an entry once the method is
    evaluated. *)
Ltac status_facts :=
  cbn [IntegrationStatus.service IntegrationStatus.status
       IntegrationStatus.last_check IntegrationStatus.metrics
       Hub.error_status];
  repeat split; intros;
  repeat match goal with
    | H : _ /\ _ |- _ => destruct H
    | H : exists _, _ |- _ => destruct H
    | H : Some _ = Some _ |- _ => injection H as <-
    | H : forall b, Some ?x = Some b -> _ |- _ => specialize (H x eq_refl)
    end;
  repeat split; intros;
  repeat match goal with
    | H : Some _ = Some _ |- _ => injection H as <-
    end;
  try discriminate; try congruence; try reflexivity; auto;
  try (eexists; split; reflexivity).

(** Runs an initialization that only asks the SCS for a session. *)
Ltac session_cases :=
  cbn zeta; unfold se_try;
  match goal with
  | |- context [if ?c then _ else _] => destruct c eqn:?
  end;
  [ unfold se_bind at 1; rewrite create_scs_session_eq;
    match goal with
    | |- context [json_of_answer 200 ?a] =>
        let body := fresh "body" in
        destruct (json_of_answer 200 a) as [body|] eqn:?;
        [ destruct body; unfold se_bind, se_lift; cbn [call_get];
          rewrite setitem_eq; (eexists; split; [reflexivity|]);
          status_facts
        | unfold se_bind, se_lift; cbn [call_get get_default PyDict.get];
          rewrite setitem_eq; (eexists; split; [reflexivity|]);
          status_facts ]
    end
  | rewrite setitem_eq; (eexists; split; [reflexivity|]); status_facts ].

(** X10: [_init_microsoft365] never raises and assigns the entry
    [microsoft365] only, with a status that is ['connected'],
    ['disconnected'] or ['error']. It is ['disconnected'] exactly when a
    credential is missing or empty, and ['error'] exactly when both are
    there and the SCS answers 200 with JSON that is not an object; it is
    ['connected'] exactly in every other case, so also when the session
    request fails, and the session id recorded is then [None] unless the
    SCS answered with one. *)
Theorem init_microsoft365_outcome (net : Network)
    (now now_except : datetime) (self : Hub.t) :
  let tenant_id := environ "MS365_TENANT_ID" in
  let client_id := environ "MS365_CLIENT_ID" in
  let answer :=
    json_of_answer 200
      (net
         (session_post (Hub.scs_url self ++ "/api/sessions")%string
            (JObject
               [("purpose", JString "Microsoft 365 Integration");
                ("metadata",
                 JObject
                   [("service", JString "microsoft365");
                    ("tenant", optional_str tenant_id)]);
                ("auto_generate_session_id", JBool true)])
            (Hub.scs_headers self))) in
  exists integration,
    Hub._init_microsoft365 py_str environ net now now_except self
    = (Ok tt,
       Hub.set_integrations
         (PyDict.set "microsoft365" integration (Hub.integrations self))
         self)
    /\ IntegrationStatus.service integration = "Microsoft 365"
    /\ (IntegrationStatus.status integration = "connected"
        \/ IntegrationStatus.status integration = "disconnected"
        \/ IntegrationStatus.status integration = "error")
    /\ (IntegrationStatus.status integration = "disconnected" <->
        str_truthy tenant_id && str_truthy client_id = false)
    /\ (IntegrationStatus.status integration = "error" <->
        str_truthy tenant_id && str_truthy client_id = true
        /\ exists body, answer = Some body /\ is_dict body = false)
    /\ (IntegrationStatus.status integration = "connected" <->
        str_truthy tenant_id && str_truthy client_id = true
        /\ forall body, answer = Some body -> is_dict body = true)
    /\ (IntegrationStatus.status integration = "connected" ->
        IntegrationStatus.last_check integration = now
        /\ IntegrationStatus.metrics integration
           = JObject
               [("session_id",
                 match answer with
                 | Some (JObject d) => get_default "session_id" JNull d
                 | _ => JNull
                 end);
                ("tenant", optional_str tenant_id)]).
Proof.
  unfold Hub._init_microsoft365. session_cases.
Qed.

(** Closes the facts about an entry once the method is evaluated. *)
Ltac hub_facts :=
  cbn [IntegrationStatus.service IntegrationStatus.status
       IntegrationStatus.last_check IntegrationStatus.metrics
       Hub.error_status];
  repeat split; intros;
  repeat match goal with
    | H : _ = _ |- _ => solve [discriminate H]
    | H : Ok _ = Ok _ |- _ => injection H as <-
    | H : Raise _ = Raise _ |- _ => injection H as <-
    | H : Some _ = Some _ |- _ => injection H as <-
    | H : _ /\ _ |- _ => destruct H
    | H : exists _, _ |- _ => destruct H
    end;
  try discriminate; try contradiction; try congruence;
  try reflexivity; auto.

(** X11: [_init_github_enterprise] never raises and assigns the entry
    [github] only. The status is ['disconnected'] exactly when the token
    is missing or empty, and then no request is sent; it is ['connected']
    only when GitHub answered 200 with a JSON object, whose [login] is
    the user recorded; an answer with another status gives ['error'] with
    the message [GitHub API error: <status>], and a request that raises
    gives ['error'] with its message. *)
Theorem init_github_enterprise_outcome (net : Network)
    (now now_except : datetime) (self : Hub.t) :
  let github_token := environ "GITHUB_TOKEN" in
  let github_url :=
    getenv_default environ "GITHUB_ENTERPRISE_URL" "https://github.com" in
  let user_answer :=
    net
      (session_get (github_url ++ "/user")%string
         [("Authorization",
           JString ("token " ++ format_optional github_token)%string)]) in
  exists integration,
    Hub._init_github_enterprise py_str environ net now now_except self
    = (Ok tt,
       Hub.set_integrations
         (PyDict.set "github" integration (Hub.integrations self)) self)
    /\ IntegrationStatus.service integration = "GitHub Enterprise"
    /\ (IntegrationStatus.status integration = "connected"
        \/ IntegrationStatus.status integration = "disconnected"
        \/ IntegrationStatus.status integration = "error")
    /\ (IntegrationStatus.status integration = "disconnected" <->
        str_truthy github_token = false)
    /\ (str_truthy github_token = false ->
        integration
        = IntegrationStatus.make "GitHub Enterprise" "disconnected" now
            (JObject [("error", JString "token_not_configured")]))
    /\ (IntegrationStatus.status integration = "connected" ->
        IntegrationStatus.last_check integration = now
        /\ exists d session_id,
             json_of_answer 200 user_answer = Some (JObject d)
             /\ IntegrationStatus.metrics integration
                = JObject
                    [("session_id", session_id);
                     ("user", get_default "login" JNull d);
                     ("enterprise_url", JString github_url)])
    /\ (str_truthy github_token = true ->
        forall response,
          user_answer = Ok response ->
          http_status response <> 200%Z ->
          integration
          = Hub.error_status "GitHub Enterprise" now_except
              ("GitHub API error: "
                 ++ py_str (JInt (http_status response)))%string)
    /\ (str_truthy github_token = true ->
        forall e,
          user_answer = Raise e ->
          integration = Hub.error_status "GitHub Enterprise" now_except e).
Proof.
  cbn zeta.
  unfold Hub._init_github_enterprise, se_try.
  destruct (str_truthy (environ "GITHUB_TOKEN")) eqn:Hc.
  2:{ rewrite setitem_eq. eexists. split; [reflexivity|]. hub_facts. }
  unfold se_bind at 1, se_lift at 1.
  destruct (net _) as [response|e] eqn:Hnet.
  2:{ rewrite setitem_eq. eexists. split; [reflexivity|]. hub_facts. }
  destruct (Z.eqb (http_status response) 200) eqn:Hst.
  2:{ unfold se_raise. rewrite setitem_eq.
      eexists. split; [reflexivity|]. hub_facts. }
  apply Z.eqb_eq in Hst.
  unfold se_bind at 1, se_lift at 1.
  destruct (http_json response) as [user_data|e] eqn:Hjson.
  2:{ rewrite setitem_eq. eexists. split; [reflexivity|]. hub_facts. }
  destruct (is_dict user_data) eqn:Hd.
  2:{ unfold se_bind at 1, se_lift at 1.
      destruct user_data; try discriminate; cbn [call_get];
        rewrite setitem_eq;
        (eexists; split; [reflexivity|]); hub_facts. }
  destruct user_data as [| | | | | |d]; try discriminate.
  unfold se_bind at 1 2, se_lift at 1 2. cbn [call_get].
  unfold se_bind at 1. rewrite create_scs_session_eq.
  assert (Hanswer : json_of_answer 200 (Ok response) = Some (JObject d)).
  { unfold json_of_answer. rewrite Hst, Hjson. reflexivity. }
  match goal with
  | |- context [match ?a with Some body => body | None => JObject [] end] =>
      destruct a as [body|]
  end.
  2:{ unfold se_bind, se_lift. cbn [call_get]. rewrite setitem_eq.
      eexists. split; [reflexivity|]. hub_facts.
      exists d. eexists. split; [exact Hanswer | reflexivity]. }
  destruct (is_dict body) eqn:Hb.
  - destruct body; try discriminate.
    unfold se_bind, se_lift. cbn [call_get]. rewrite setitem_eq.
    eexists. split; [reflexivity|]. hub_facts.
    exists d. eexists. split; [exact Hanswer | reflexivity].
  - unfold se_bind at 1, se_lift at 1.
    destruct body; try discriminate; cbn [call_get];
      rewrite setitem_eq;
      (eexists; split; [reflexivity|]); hub_facts.
Qed.

Lemma json_of_answer_ok (response : HttpResponse) (body : JSON) :
  http_status response = 200%Z -> http_json response = Ok body ->
  json_of_answer 200 (Ok response) = Some body.
Proof.
  intros Hst Hjson. unfold json_of_answer. now rewrite Hst, Hjson.
Qed.

(** X12: [_init_n8n] never raises and assigns the entry [n8n] only, with
    a status that is ['connected'] or ['error']. It is ['connected']
    exactly when n8n answers 200 with a JSON object whose [data] (an
    empty list when missing) has a length, and the entry then records
    that length as [active_workflows], with the URL; a [data] that is
    [null] gives ['error']. *)
Theorem init_n8n_outcome (net : Network) (now now_except : datetime)
    (self : Hub.t) :
  let answer :=
    net
      (session_get (Hub.n8n_url self ++ "/rest/active")%string
         (Hub.n8n_headers self)) in
  exists integration,
    Hub._init_n8n py_str str_len net now now_except self
    = (Ok tt,
       Hub.set_integrations
         (PyDict.set "n8n" integration (Hub.integrations self)) self)
    /\ IntegrationStatus.service integration = "n8n Workflows"
    /\ (IntegrationStatus.status integration = "connected"
        \/ IntegrationStatus.status integration = "error")
    /\ (IntegrationStatus.status integration = "connected" <->
        exists d count,
          json_of_answer 200 answer = Some (JObject d)
          /\ py_len str_len (get_default "data" (JArray []) d) = Ok count)
    /\ (forall d count,
          json_of_answer 200 answer = Some (JObject d) ->
          py_len str_len (get_default "data" (JArray []) d) = Ok count ->
          integration
          = IntegrationStatus.make "n8n Workflows" "connected" now
              (JObject
                 [("active_workflows", JInt (Z.of_nat count));
                  ("url", JString (Hub.n8n_url self))]))
    /\ (forall d,
          json_of_answer 200 answer = Some (JObject d) ->
          PyDict.get "data" d = Some JNull ->
          integration
          = Hub.error_status "n8n Workflows" now_except
              "object of type 'NoneType' has no len()").
Proof.
  cbn zeta.
  unfold Hub._init_n8n, se_try.
  unfold se_bind at 1 2, se_get at 1, se_lift at 1.
  destruct (net _) as [response|e] eqn:Hnet.
  2:{ rewrite setitem_eq. eexists. split; [reflexivity|].
      unfold json_of_answer. hub_facts. }
  destruct (Z.eqb (http_status response) 200) eqn:Hst.
  2:{ unfold se_raise. rewrite setitem_eq.
      eexists. split; [reflexivity|].
      unfold json_of_answer. rewrite Hst. hub_facts. }
  apply Z.eqb_eq in Hst.
  unfold se_bind at 1, se_lift at 1.
  destruct (http_json response) as [workflows|e] eqn:Hjson.
  2:{ rewrite setitem_eq. eexists. split; [reflexivity|].
      unfold json_of_answer. rewrite Hst, Hjson. hub_facts. }
  rewrite (json_of_answer_ok _ _ Hst Hjson).
  destruct (is_dict workflows) eqn:Hd.
  2:{ unfold se_bind at 1, se_lift at 1, Hub.active_workflows.
      destruct workflows; try discriminate; cbn [call_get];
        rewrite setitem_eq;
        (eexists; split; [reflexivity|]); hub_facts. }
  destruct workflows as [| | | | | |d]; try discriminate.
  unfold se_bind at 1 2, se_lift at 1 2, Hub.active_workflows.
  cbn [call_get].
  destruct (py_len str_len (get_default "data" (JArray []) d))
    as [count|e] eqn:Hlen.
  - rewrite setitem_eq. eexists. split; [reflexivity|]. hub_facts.
    + exists d, count. split; [reflexivity | exact Hlen].
    + unfold get_default in Hlen.
      match goal with H : PyDict.get "data" _ = Some JNull |- _ =>
        rewrite H in Hlen end.
      discriminate.
  - rewrite setitem_eq. eexists. split; [reflexivity|]. hub_facts.
    unfold get_default in Hlen.
    match goal with H : PyDict.get "data" _ = Some JNull |- _ =>
      rewrite H in Hlen end.
    cbn in Hlen. congruence.
Qed.

(** X13: [_connect_scs] never raises and assigns the entry
    [shared-context-server] only, with a status that is ['connected'] or
    ['error']. It is ['connected'] exactly when the SCS answers 200 with
    a JSON object, and that object then becomes the metrics of the entry;
    an answer with another status gives ['error'] with the message
    [Status code: <status>]. *)
Theorem connect_scs_outcome (net : Network) (now now_except : datetime)
    (self : Hub.t) :
  let answer :=
    net
      (session_get (Hub.scs_url self ++ "/health")%string
         (Hub.scs_headers self)) in
  exists integration,
    Hub._connect_scs py_str net now now_except self
    = (Ok tt,
       Hub.set_integrations
         (PyDict.set "shared-context-server" integration
            (Hub.integrations self))
         self)
    /\ IntegrationStatus.service integration = "Shared Context Server"
    /\ (IntegrationStatus.status integration = "connected"
        \/ IntegrationStatus.status integration = "error")
    /\ (IntegrationStatus.status integration = "connected" <->
        exists d, json_of_answer 200 answer = Some (JObject d))
    /\ (forall d,
          json_of_answer 200 answer = Some (JObject d) ->
          integration
          = IntegrationStatus.make "Shared Context Server" "connected"
              now (JObject d))
    /\ (forall response,
          answer = Ok response ->
          http_status response <> 200%Z ->
          integration
          = Hub.error_status "Shared Context Server" now_except
              ("Status code: " ++ py_str (JInt (http_status response)))%string).
Proof.
  cbn zeta.
  unfold Hub._connect_scs, se_try.
  unfold se_bind at 1 2, se_get at 1, se_lift at 1.
  destruct (net _) as [response|e] eqn:Hnet.
  2:{ rewrite setitem_eq. eexists. split; [reflexivity|].
      unfold json_of_answer. hub_facts. }
  destruct (Z.eqb (http_status response) 200) eqn:Hst.
  2:{ unfold se_raise. rewrite setitem_eq.
      eexists. split; [reflexivity|].
      unfold json_of_answer. rewrite Hst. hub_facts. }
  apply Z.eqb_eq in Hst.
  unfold se_bind at 1, se_lift at 1.
  destruct (http_json response) as [data|e] eqn:Hjson.
  2:{ rewrite setitem_eq. eexists. split; [reflexivity|].
      unfold json_of_answer. rewrite Hst, Hjson. hub_facts. }
  rewrite (json_of_answer_ok _ _ Hst Hjson).
  destruct (is_dict data) eqn:Hd.
  2:{ unfold se_bind at 1, se_lift at 1.
      destruct data; try discriminate; cbn [call_get];
        rewrite setitem_eq;
        (eexists; split; [reflexivity|]); hub_facts. }
  destruct data as [| | | | | |d]; try discriminate.
  unfold se_bind, se_lift. cbn [call_get].
  rewrite setitem_eq. eexists. split; [reflexivity|]. hub_facts.
  exists d. reflexivity.
Qed.

(** X14: [_init_external_apis] never raises and assigns the entry
    [external_apis] only: ['connected'] when Slack, Jira (token and URL
    both) or Salesforce is configured with a value that is not empty,
    ['disconnected'] otherwise, never ['error']; [configured_apis] lists
    the configured ones in the order slack, jira, salesforce. *)
Theorem init_external_apis_outcome (now : datetime) (self : Hub.t) :
  let slack := str_truthy (environ "SLACK_BOT_TOKEN") in
  let jira :=
    str_truthy (environ "JIRA_API_TOKEN") && str_truthy (environ "JIRA_URL") in
  let salesforce := str_truthy (environ "SALESFORCE_CLIENT_ID") in
  Hub._init_external_apis environ now self
  = (Ok tt,
     Hub.set_integrations
       (PyDict.set "external_apis"
          (IntegrationStatus.make "External APIs"
             (if slack || jira || salesforce then "connected"
              else "disconnected")
             now
             (JObject
                [("configured_apis",
                  JArray
                    ((if slack then [JString "slack"] else [])
                       ++ (if jira then [JString "jira"] else [])
                       ++ (if salesforce then [JString "salesforce"]
                           else [])))]))
          (Hub.integrations self))
       self).
Proof.
  cbn zeta. unfold Hub._init_external_apis, Hub.external_apis.
  rewrite setitem_eq.
  destruct (str_truthy (environ "SLACK_BOT_TOKEN"));
    destruct (str_truthy (environ "JIRA_API_TOKEN")
              && str_truthy (environ "JIRA_URL"));
    destruct (str_truthy (environ "SALESFORCE_CLIENT_ID"));
    reflexivity.
Qed.

(** Runs a method to the assignment it ends in, by cases on what the
    network answered. *)
Ltac hub_cases :=
  repeat first
    [ rewrite create_scs_session_eq
    | rewrite setitem_eq
    | progress unfold se_try, se_bind, se_lift, se_get, se_raise, se_ret
    | progress cbn [call_get]
    | match goal with
      | |- context [call_get ?v _ _] => is_var v; destruct v
      | |- context [match ?x with Ok _ => _ | Raise _ => _ end] =>
          destruct x
      | |- context [match ?x with Some _ => _ | None => _ end] =>
          destruct x
      | |- context [if ?b then _ else _] => destruct b
      end ].

Ltac hub_assigned :=
  eexists; split; [reflexivity|];
  split; [cbn; auto | reflexivity].

Lemma connect_scs_assigns (net : Network) (now now_except : datetime)
    (self : Hub.t) :
  exists integration,
    Hub._connect_scs py_str net now now_except self
    = (Ok tt,
       Hub.set_integrations
         (PyDict.set "shared-context-server" integration
            (Hub.integrations self))
         self)
    /\ Hub.well_formed integration.
Proof.
  unfold Hub._connect_scs. hub_cases; hub_assigned.
Qed.

Lemma init_microsoft365_assigns (net : Network)
    (now now_except : datetime) (self : Hub.t) :
  exists integration,
    Hub._init_microsoft365 py_str environ net now now_except self
    = (Ok tt,
       Hub.set_integrations
         (PyDict.set "microsoft365" integration (Hub.integrations self))
         self)
    /\ Hub.well_formed integration.
Proof.
  unfold Hub._init_microsoft365. hub_cases; hub_assigned.
Qed.

Lemma init_github_enterprise_assigns (net : Network)
    (now now_except : datetime) (self : Hub.t) :
  exists integration,
    Hub._init_github_enterprise py_str environ net now now_except self
    = (Ok tt,
       Hub.set_integrations
         (PyDict.set "github" integration (Hub.integrations self)) self)
    /\ Hub.well_formed integration.
Proof.
  unfold Hub._init_github_enterprise. hub_cases; hub_assigned.
Qed.

Lemma init_notion_assigns (net : Network) (now now_except : datetime)
    (self : Hub.t) :
  exists integration,
    Hub._init_notion py_str environ net now now_except self
    = (Ok tt,
       Hub.set_integrations
         (PyDict.set "notion" integration (Hub.integrations self)) self)
    /\ Hub.well_formed integration.
Proof.
  unfold Hub._init_notion. hub_cases; hub_assigned.
Qed.

Lemma init_n8n_assigns (net : Network) (now now_except : datetime)
    (self : Hub.t) :
  exists integration,
    Hub._init_n8n py_str str_len net now now_except self
    = (Ok tt,
       Hub.set_integrations
         (PyDict.set "n8n" integration (Hub.integrations self)) self)
    /\ Hub.well_formed integration.
Proof.
  unfold Hub._init_n8n, Hub.active_workflows. hub_cases; hub_assigned.
Qed.

Lemma init_external_apis_assigns (now : datetime) (self : Hub.t) :
  exists integration,
    Hub._init_external_apis environ now self
    = (Ok tt,
       Hub.set_integrations
         (PyDict.set "external_apis" integration (Hub.integrations self))
         self)
    /\ Hub.well_formed integration.
Proof.
  unfold Hub._init_external_apis. rewrite setitem_eq.
  eexists. split; [reflexivity|]. split; [|reflexivity].
  cbn. destruct (Hub.external_apis environ); cbn; auto.
Qed.

Lemma se_bind_ok {S A B : Type} (m : SE S A) (k : A -> SE S B)
    (s s' : S) (a : A) :
  m s = (Ok a, s') -> se_bind m k s = k a s'.
Proof.
  intros H. unfold se_bind. now rewrite H.
Qed.

Lemma se_bind_assoc {S A B C : Type} (m : SE S A) (k : A -> SE S B)
    (k' : B -> SE S C) (s : S) :
  se_bind (se_bind m k) k' s = se_bind m (fun a => se_bind (k a) k') s.
Proof.
  unfold se_bind. destruct (m s) as [[a|e] s']; reflexivity.
Qed.

(** X15: [initialize] never raises, whatever the network and the
    environment are. From a new hub it leaves exactly the six
    integrations shared-context-server, microsoft365, github, notion, n8n
    and external_apis, in this order, the names the dashboard seeds its
    registry with; each has a status among ['connected'],
    ['disconnected'] and ['error'] and metrics that are a dict. *)
Theorem initialize_outcome (net : Network) (clock : nat -> datetime) :
  exists self',
    Hub.initialize py_str str_len environ net clock (Hub.init environ)
    = (Ok tt, self')
    /\ PyDict.keys (Hub.integrations self') = default_integrations
    /\ Forall Hub.well_formed (PyDict.values (Hub.integrations self'))
    /\ Hub.scs_url self' = Hub.scs_url (Hub.init environ)
    /\ Hub.n8n_url self' = Hub.n8n_url (Hub.init environ).
Proof.
  unfold Hub.initialize, Hub._initialize_integrations.
  set (s0 := Hub.init environ).
  destruct (connect_scs_assigns net (clock 0) (clock 1) s0)
    as (i1 & E1 & W1).
  rewrite (se_bind_ok _ _ _ _ _ E1). cbv beta. rewrite ?se_bind_assoc.
  set (s1 := Hub.set_integrations _ s0) in *.
  destruct (init_microsoft365_assigns net (clock (2 + 0)) (clock (2 + 1)) s1)
    as (i2 & E2 & W2).
  rewrite (se_bind_ok _ _ _ _ _ E2). cbv beta. rewrite ?se_bind_assoc.
  set (s2 := Hub.set_integrations _ s1) in *.
  destruct (init_github_enterprise_assigns net (clock (2 + 2))
              (clock (2 + 3)) s2) as (i3 & E3 & W3).
  rewrite (se_bind_ok _ _ _ _ _ E3). cbv beta. rewrite ?se_bind_assoc.
  set (s3 := Hub.set_integrations _ s2) in *.
  destruct (init_notion_assigns net (clock (2 + 4)) (clock (2 + 5)) s3)
    as (i4 & E4 & W4).
  rewrite (se_bind_ok _ _ _ _ _ E4). cbv beta. rewrite ?se_bind_assoc.
  set (s4 := Hub.set_integrations _ s3) in *.
  destruct (init_n8n_assigns net (clock (2 + 6)) (clock (2 + 7)) s4)
    as (i5 & E5 & W5).
  rewrite (se_bind_ok _ _ _ _ _ E5). cbv beta. rewrite ?se_bind_assoc.
  set (s5 := Hub.set_integrations _ s4) in *.
  destruct (init_external_apis_assigns (clock (2 + 8)) s5)
    as (i6 & E6 & W6).
  rewrite (se_bind_ok _ _ _ _ _ E6). cbv beta. rewrite ?se_bind_assoc.
  eexists. split; [reflexivity|].
  subst s5 s4 s3 s2 s1 s0. cbn.
  split; [reflexivity|].
  split; [repeat (apply Forall_cons; [assumption|]); apply Forall_nil|].
  split; reflexivity.
Qed.

Lemma connected_count_le (integrations : PyDict.t IntegrationStatus.t) :
  Hub.connected_count integrations <= PyDict.len integrations.
Proof.
  unfold Hub.connected_count, PyDict.len, PyDict.values.
  rewrite list_sum_ones.
  etransitivity; [apply filter_length_le|]. now rewrite length_map.
Qed.

(** X16: on a hub that holds each integration once, [get_system_status]
    returns, without raising or changing the hub, the status, the time of
    the last check in ISO form and the metrics of every integration, in
    the order of the registry, with their number as [total_integrations]
    and the number of connected ones, which is never larger, as
    [connected_integrations]. *)
Theorem hub_get_system_status_entries (now : datetime) (self : Hub.t) :
  PyDict.wf (Hub.integrations self) ->
  Hub.get_system_status isoformat now self
  = (Ok
       (JObject
          [("hub_status", JString "running");
           ("timestamp", JString (isoformat now));
           ("integrations",
            JObject
              (map
                 (fun item =>
                    (fst item,
                     JObject
                       [("status",
                         JString (IntegrationStatus.status (snd item)));
                        ("last_check",
                         JString
                           (isoformat
                              (IntegrationStatus.last_check (snd item))));
                        ("metrics", IntegrationStatus.metrics (snd item))]))
                 (Hub.integrations self)));
           ("total_integrations",
            JInt (Z.of_nat (PyDict.len (Hub.integrations self))));
           ("connected_integrations",
            JInt (Z.of_nat (Hub.connected_count (Hub.integrations self))))]),
     self)
  /\ Hub.connected_count (Hub.integrations self)
     <= PyDict.len (Hub.integrations self).
Proof.
  intros Hwf. split; [|apply connected_count_le].
  unfold Hub.get_system_status, se_bind, se_get, se_ret.
  do 5 f_equal.
  rewrite (fold_set_fresh
             (fun i =>
                JObject
                  [("status", JString (IntegrationStatus.status i));
                   ("last_check",
                    JString (isoformat (IntegrationStatus.last_check i)));
                   ("metrics", IntegrationStatus.metrics i)]));
    [reflexivity | exact Hwf | intros k _ []].
Qed.

Lemma analyze_email_returns (net : Network) (email_data : PyDict.t JSON)
    (self : Hub.t) :
  exists analysis,
    Hub._analyze_email_with_scs py_str net email_data self
    = (Ok analysis, self).
Proof.
  unfold Hub._analyze_email_with_scs.
  unfold se_try, se_bind at 1 2, se_get, se_lift at 1.
  destruct (PyDict.get "microsoft365" (Hub.integrations self))
    as [integration|]; [|eexists; reflexivity].
  destruct (call_get (IntegrationStatus.metrics integration) "session_id"
              JNull); [|eexists; reflexivity].
  hub_cases; eexists; reflexivity.
Qed.

Lemma create_github_issue_returns (net : Network) (now : datetime)
    (email_data : PyDict.t JSON) (analysis : JSON) (self : Hub.t) :
  exists issue,
    Hub._create_github_issue_from_email py_str strftime json_dumps environ
      net now email_data analysis self
    = (Ok issue, self).
Proof.
  unfold Hub._create_github_issue_from_email.
  hub_cases; eexists; reflexivity.
Qed.

Lemma create_notion_documentation_returns (now : datetime)
    (email_data : PyDict.t JSON) (analysis github_issue : JSON)
    (self : Hub.t) :
  exists page,
    Hub._create_notion_documentation isoformat py_str py_hash now
      email_data analysis github_issue self
    = (Ok (JObject page), self).
Proof.
  unfold Hub._create_notion_documentation, se_try, se_bind, se_lift, se_ret.
  destruct (Hub.get_if_true github_issue "html_url");
    eexists; reflexivity.
Qed.

Lemma notify_teams_returns (workflow_name : string) (details : JSON)
    (self : Hub.t) :
  Hub._notify_teams_workflow_completion json_dumps workflow_name details
    self
  = (Ok tt, self).
Proof.
  unfold Hub._notify_teams_workflow_completion, Hub.getitem, se_try,
    se_bind, se_get, se_raise, se_ret.
  destruct (PyDict.get "microsoft365" (Hub.integrations self))
    as [integration|]; [|reflexivity].
  destruct (String.eqb (IntegrationStatus.status integration) "connected");
    reflexivity.
Qed.

(** X17: [_analyze_email_with_scs] never raises and leaves the hub as it
    is. Without a [microsoft365] entry it sends nothing and returns an
    analysis of kind ['error']; with one whose metrics are a dict it
    returns the JSON body of a 200 answer, the manual fallback for any
    other status, and an analysis of kind ['error'] with the message when
    the request or the decoding raises. *)
Theorem analyze_email_outcome (net : Network) (email_data : PyDict.t JSON)
    (self : Hub.t) :
  exists analysis,
    Hub._analyze_email_with_scs py_str net email_data self
    = (Ok analysis, self)
    /\ (PyDict.get "microsoft365" (Hub.integrations self) = None ->
        analysis
        = JObject
            [("analysis", JString "error");
             ("error", JString "'dict' object has no attribute 'metrics'")])
    /\ forall integration d,
         PyDict.get "microsoft365" (Hub.integrations self)
         = Some integration ->
         IntegrationStatus.metrics integration = JObject d ->
         analysis
         = match
             net
               (session_post
                  (Hub.scs_url self ++ "/api/sessions/messages")%string
                  (JObject
                     [("session_id", get_default "session_id" JNull d);
                      ("agent_name", JString "email_analyzer");
                      ("content",
                       JString
                         ("Analizando email: "
                            ++ Hub.format_value py_str
                                 (get_default "subject"
                                    (JString "Sin asunto") email_data))%string);
                      ("message_type", JString "analysis");
                      ("metadata",
                       JObject
                         [("email_data", JObject email_data);
                          ("analysis_type",
                           JString "email_classification")])])
                  (Hub.scs_headers self))
           with
           | Ok response =>
               if Z.eqb (http_status response) 200
               then
                 match http_json response with
                 | Ok body => body
                 | Raise e =>
                     JObject
                       [("analysis", JString "error"); ("error", JString e)]
                 end
               else
                 JObject
                   [("analysis", JString "manual_fallback");
                    ("category", JString "technical_request")]
           | Raise e =>
               JObject [("analysis", JString "error"); ("error", JString e)]
           end.
Proof.
  unfold Hub._analyze_email_with_scs.
  unfold se_try, se_bind at 1 2, se_get, se_lift at 1.
  destruct (PyDict.get "microsoft365" (Hub.integrations self))
    as [integration|] eqn:Hm.
  2:{ eexists. split; [reflexivity|]. split; [reflexivity|].
      intros i d [=]. }
  destruct (call_get (IntegrationStatus.metrics integration) "session_id"
              JNull) as [session_id|e] eqn:Hs.
  2:{ eexists. split; [reflexivity|]. split; [discriminate|].
      intros i d [= <-] Hd. rewrite Hd in Hs. discriminate. }
  unfold se_bind, se_lift, se_ret.
  destruct (net _) as [response|e] eqn:Hnet.
  2:{ eexists. split; [reflexivity|]. split; [discriminate|].
      intros i d [= <-] Hd. rewrite Hd in Hs. cbn in Hs.
      injection Hs as <-. rewrite Hnet. reflexivity. }
  destruct (Z.eqb (http_status response) 200) eqn:Hst.
  2:{ eexists. split; [reflexivity|]. split; [discriminate|].
      intros i d [= <-] Hd. rewrite Hd in Hs. cbn in Hs.
      injection Hs as <-. rewrite Hnet, Hst. reflexivity. }
  destruct (http_json response) as [body|e] eqn:Hjson;
    (eexists; split; [reflexivity|]; split; [discriminate|];
     intros i d [= <-] Hd; rewrite Hd in Hs; cbn in Hs;
     injection Hs as <-; rewrite Hnet, Hst, Hjson; reflexivity).
Qed.

(** X18: [_create_notion_documentation] never raises and leaves the hub
    as it is. The page it returns records as [GitHub Issue] the
    [html_url] of the issue when the issue is a dict that is not empty
    ([None] when it has no such key), and [None] when the issue is empty
    or otherwise false; for an issue that is true but not a dict it
    returns the empty dict. *)
Theorem create_notion_documentation_outcome (now : datetime)
    (email_data : PyDict.t JSON) (analysis github_issue : JSON)
    (self : Hub.t) :
  let page := fun issue_url =>
    JObject
      [("title",
        JString
          ("Email Request: "
             ++ Hub.format_value py_str
                  (get_default "subject" (JString "Sin asunto") email_data))%string);
       ("url",
        JString
          ("https://notion.so/entry/"
             ++ py_str (JInt (py_hash (py_str (JObject email_data)))))%string);
       ("properties",
        JObject
          [("Source", JString "Email Integration");
           ("Status", JString "Documented");
           ("GitHub Issue", issue_url);
           ("Created", JString (isoformat now))])] in
  exists result,
    Hub._create_notion_documentation isoformat py_str py_hash now
      email_data analysis github_issue self
    = (Ok result, self)
    /\ (truthy github_issue = false -> result = page JNull)
    /\ (forall d,
          github_issue = JObject d -> d <> [] ->
          result = page (get_default "html_url" JNull d))
    /\ (truthy github_issue = true -> is_dict github_issue = false ->
        result = JObject []).
Proof.
  cbn zeta.
  unfold Hub._create_notion_documentation, se_try, se_bind, se_lift,
    se_ret, Hub.get_if_true.
  destruct (truthy github_issue) eqn:Ht.
  - destruct (is_dict github_issue) eqn:Hd.
    + destruct github_issue as [| | | | | |d]; try discriminate.
      cbn [call_get]. eexists. split; [reflexivity|].
      split; [discriminate|]. split; [|discriminate].
      intros d' [= <-] _. reflexivity.
    + destruct github_issue; try discriminate; cbn [call_get];
        (eexists; split; [reflexivity|]);
        (split; [discriminate|]); (split; [discriminate|]); reflexivity.
  - eexists. split; [reflexivity|]. split; [reflexivity|].
    split; [|discriminate].
    intros d -> Hne. destruct d; [contradiction | discriminate].
Qed.

(** X19: [_create_github_issue_from_email] never raises and leaves the
    hub as it is. It posts an issue titled [[EMAIL] <subject>] ([Issue
    from Email] without a subject) with the labels automation and
    email-integration, and returns the JSON body of an answer of status
    201; for any other status, 200 too, and for a request or a decoding
    that raises, it returns the empty dict. *)
Theorem create_github_issue_outcome (net : Network) (now : datetime)
    (email_data : PyDict.t JSON) (analysis : JSON) (self : Hub.t) :
  let subject :=
    get_default "subject" (JString "Issue from Email") email_data in
  let request :=
    session_post
      (getenv_default environ "GITHUB_ENTERPRISE_URL" "https://github.com"
         ++ "/repos/omanzanodev/enterprise-integration-hub/issues")%string
      (JObject
         [("title",
           JString ("[EMAIL] " ++ Hub.format_value py_str subject)%string);
          ("body",
           JString
             (Hub.issue_body py_str strftime json_dumps now
                (get_default "from" (JString "unknown@example.com")
                   email_data)
                subject
                (get_default "body" (JString "") email_data)
                analysis));
          ("labels",
           JArray [JString "automation"; JString "email-integration"])])
      [("Authorization",
        JString
          ("token " ++ format_optional (environ "GITHUB_TOKEN"))%string)] in
  Hub._create_github_issue_from_email py_str strftime json_dumps environ
    net now email_data analysis self
  = (Ok
       (match json_of_answer 201 (net request) with
        | Some body => body
        | None => JObject []
        end),
     self).
Proof.
  cbn zeta.
  unfold Hub._create_github_issue_from_email, se_try, se_bind, se_lift,
    se_raise, se_ret, json_of_answer.
  destruct (net _) as [response|e]; [|reflexivity].
  destruct (Z.eqb (http_status response) 201); [|reflexivity].
  destruct (http_json response); reflexivity.
Qed.

(** Runs the workflow to its result, by cases on the two statuses and on
    the issue and the page created. *)
Ltac workflow_cases Ea Ei Hg Hn :=
  repeat first
    [ rewrite Ea
    | rewrite Ei
    | rewrite Hg
    | rewrite Hn
    | rewrite notify_teams_returns
    | match goal with
      | |- context [Hub._create_notion_documentation ?a ?b ?c ?d ?e ?f ?g ?s] =>
          let page := fresh "page" in
          let Ep := fresh "Ep" in
          destruct (create_notion_documentation_returns d e f g s)
            as [page Ep];
          rewrite Ep
      end
    | progress cbv beta iota delta
        [se_try se_bind se_lift se_ret se_get se_raise Hub.getitem
         Hub.local_variable Hub.get_if_true]
    | progress cbn [call_get]
    | match goal with
      | |- context [if String.eqb ?a ?b then _ else _] =>
          destruct (String.eqb a b) eqn:?
      | |- context [call_get ?v _ _] => is_var v; destruct v
      | |- context [if truthy ?v then _ else _] => destruct (truthy v)
      end ].

Ltac workflow_facts Ea Ei :=
  repeat split; intros;
  repeat match goal with
    | H : Hub._analyze_email_with_scs _ _ _ _ = _ |- _ =>
        rewrite Ea in H; injection H as <-
    | H : Hub._create_github_issue_from_email _ _ _ _ _ _ _ _ _ = _ |- _ =>
        rewrite Ei in H; injection H as <-
    | H : String.eqb _ _ = true |- _ => apply String.eqb_eq in H
    | H : String.eqb _ _ = false |- _ => apply String.eqb_neq in H
    end;
  try discriminate; try contradiction; try congruence; try reflexivity.

(** X20: [process_email_to_github_workflow] never raises and leaves the
    hub as it is. On a hub that has a github and a notion entry it
    reports success only when both are connected: when github is not
    connected the result is a failure whose error is the unbound local
    [github_issue], and when github is connected but notion is not it is
    a failure too. When both are connected it reports success exactly
    when the issue created is a dict, and then returns that issue. *)
Theorem process_email_outcome (net : Network)
    (now_issue now_page : datetime) (email_data : PyDict.t JSON)
    (self : Hub.t) (github notion : IntegrationStatus.t) :
  PyDict.get "github" (Hub.integrations self) = Some github ->
  PyDict.get "notion" (Hub.integrations self) = Some notion ->
  exists result,
    Hub.process_email_to_github_workflow isoformat py_str strftime
      json_dumps py_hash unbound_local environ net now_issue now_page
      email_data self
    = (Ok (JObject result), self)
    /\ (PyDict.get "success" result = Some (JBool true) ->
        IntegrationStatus.status github = "connected"
        /\ IntegrationStatus.status notion = "connected")
    /\ (IntegrationStatus.status github <> "connected" ->
        result
        = [("success", JBool false);
           ("error", JString (unbound_local "github_issue"))])
    /\ (IntegrationStatus.status github = "connected" ->
        IntegrationStatus.status notion <> "connected" ->
        PyDict.get "success" result = Some (JBool false))
    /\ (forall analysis issue,
          Hub._analyze_email_with_scs py_str net email_data self
          = (Ok analysis, self) ->
          Hub._create_github_issue_from_email py_str strftime json_dumps
            environ net now_issue email_data analysis self
          = (Ok issue, self) ->
          IntegrationStatus.status github = "connected" ->
          IntegrationStatus.status notion = "connected" ->
          (PyDict.get "success" result = Some (JBool true) <->
           is_dict issue = true)
          /\ (is_dict issue = true ->
              PyDict.get "github_issue" result = Some issue)).
Proof.
  intros Hg Hn.
  destruct (analyze_email_returns net email_data self) as [analysis Ea].
  destruct (create_github_issue_returns net now_issue email_data analysis
              self) as [issue Ei].
  match goal with |- exists result, ?lhs = _ /\ _ => pattern lhs end.
  match goal with |- ?P _ => set (Q := P) end.
  unfold Hub.process_email_to_github_workflow.
  workflow_cases Ea Ei Hg Hn.
  all: subst Q; cbv beta; eexists; (split; [reflexivity|]).
  all: workflow_facts Ea Ei.
Qed.

(** X21: [_init_notion] never raises and assigns the entry [notion]
    only, with a status that is ['connected'], ['disconnected'] or
    ['error']. It is ['disconnected'] exactly when the token or the
    database id is missing or empty, and ['error'] exactly when both are
    there and the SCS answers 200 with JSON that is not an object; it is
    ['connected'] exactly in every other case, so also when the session
    request fails, with the session id [None] unless the SCS answered
    with one. *)
Theorem init_notion_outcome (net : Network) (now now_except : datetime)
    (self : Hub.t) :
  let notion_token := environ "NOTION_TOKEN" in
  let database_id := environ "NOTION_DATABASE_ID" in
  let answer :=
    json_of_answer 200
      (net
         (session_post (Hub.scs_url self ++ "/api/sessions")%string
            (JObject
               [("purpose", JString "Notion Integration");
                ("metadata",
                 JObject
                   [("service", JString "notion");
                    ("database_id", optional_str database_id)]);
                ("auto_generate_session_id", JBool true)])
            (Hub.scs_headers self))) in
  exists integration,
    Hub._init_notion py_str environ net now now_except self
    = (Ok tt,
       Hub.set_integrations
         (PyDict.set "notion" integration (Hub.integrations self)) self)
    /\ IntegrationStatus.service integration = "Notion"
    /\ (IntegrationStatus.status integration = "connected"
        \/ IntegrationStatus.status integration = "disconnected"
        \/ IntegrationStatus.status integration = "error")
    /\ (IntegrationStatus.status integration = "disconnected" <->
        str_truthy notion_token && str_truthy database_id = false)
    /\ (IntegrationStatus.status integration = "error" <->
        str_truthy notion_token && str_truthy database_id = true
        /\ exists body, answer = Some body /\ is_dict body = false)
    /\ (IntegrationStatus.status integration = "connected" <->
        str_truthy notion_token && str_truthy database_id = true
        /\ forall body, answer = Some body -> is_dict body = true)
    /\ (IntegrationStatus.status integration = "connected" ->
        IntegrationStatus.last_check integration = now
        /\ IntegrationStatus.metrics integration
           = JObject
               [("session_id",
                 match answer with
                 | Some (JObject d) => get_default "session_id" JNull d
                 | _ => JNull
                 end);
                ("database_id", optional_str database_id)]).
Proof.
  unfold Hub._init_notion. session_cases.
Qed.

(** With the network down, what each step of [initialize] assigns. *)
Ltac offline_cases Hnet :=
  repeat first
    [ rewrite create_scs_session_eq
    | rewrite setitem_eq
    | progress unfold se_try, se_bind, se_lift, se_get, se_raise, se_ret,
        json_of_answer
    | progress cbn [call_get get_default PyDict.get]
    | match goal with
      | |- context [match ?net ?r with Ok _ => _ | Raise _ => _ end] =>
          let e := fresh "e" in
          let He := fresh "He" in
          destruct (Hnet r) as [e He]; rewrite He
      end ].

Lemma connect_scs_offline (net : Network) (now now_except : datetime)
    (self : Hub.t) :
  (forall request, exists e, net request = Raise e) ->
  exists integration,
    Hub._connect_scs py_str net now now_except self
    = (Ok tt,
       Hub.set_integrations
         (PyDict.set "shared-context-server" integration
            (Hub.integrations self))
         self)
    /\ IntegrationStatus.status integration = "error".
Proof.
  intros Hnet. unfold Hub._connect_scs. offline_cases Hnet.
  eexists. split; reflexivity.
Qed.

Lemma init_microsoft365_offline (net : Network)
    (now now_except : datetime) (self : Hub.t) :
  (forall request, exists e, net request = Raise e) ->
  exists integration,
    Hub._init_microsoft365 py_str environ net now now_except self
    = (Ok tt,
       Hub.set_integrations
         (PyDict.set "microsoft365" integration (Hub.integrations self))
         self)
    /\ IntegrationStatus.status integration
       = if str_truthy (environ "MS365_TENANT_ID")
            && str_truthy (environ "MS365_CLIENT_ID")
         then "connected" else "disconnected".
Proof.
  intros Hnet. unfold Hub._init_microsoft365.
  destruct (str_truthy (environ "MS365_TENANT_ID")
            && str_truthy (environ "MS365_CLIENT_ID"));
    offline_cases Hnet; eexists; split; reflexivity.
Qed.

Lemma init_github_enterprise_offline (net : Network)
    (now now_except : datetime) (self : Hub.t) :
  (forall request, exists e, net request = Raise e) ->
  exists integration,
    Hub._init_github_enterprise py_str environ net now now_except self
    = (Ok tt,
       Hub.set_integrations
         (PyDict.set "github" integration (Hub.integrations self)) self)
    /\ IntegrationStatus.status integration
       = if str_truthy (environ "GITHUB_TOKEN")
         then "error" else "disconnected".
Proof.
  intros Hnet. unfold Hub._init_github_enterprise.
  destruct (str_truthy (environ "GITHUB_TOKEN"));
    offline_cases Hnet; eexists; split; reflexivity.
Qed.

Lemma init_notion_offline (net : Network) (now now_except : datetime)
    (self : Hub.t) :
  (forall request, exists e, net request = Raise e) ->
  exists integration,
    Hub._init_notion py_str environ net now now_except self
    = (Ok tt,
       Hub.set_integrations
         (PyDict.set "notion" integration (Hub.integrations self)) self)
    /\ IntegrationStatus.status integration
       = if str_truthy (environ "NOTION_TOKEN")
            && str_truthy (environ "NOTION_DATABASE_ID")
         then "connected" else "disconnected".
Proof.
  intros Hnet. unfold Hub._init_notion.
  destruct (str_truthy (environ "NOTION_TOKEN")
            && str_truthy (environ "NOTION_DATABASE_ID"));
    offline_cases Hnet; eexists; split; reflexivity.
Qed.

Lemma init_n8n_offline (net : Network) (now now_except : datetime)
    (self : Hub.t) :
  (forall request, exists e, net request = Raise e) ->
  exists integration,
    Hub._init_n8n py_str str_len net now now_except self
    = (Ok tt,
       Hub.set_integrations
         (PyDict.set "n8n" integration (Hub.integrations self)) self)
    /\ IntegrationStatus.status integration = "error".
Proof.
  intros Hnet. unfold Hub._init_n8n. offline_cases Hnet.
  eexists. split; reflexivity.
Qed.

Lemma init_external_apis_status (now : datetime) (self : Hub.t) :
  exists integration,
    Hub._init_external_apis environ now self
    = (Ok tt,
       Hub.set_integrations
         (PyDict.set "external_apis" integration (Hub.integrations self))
         self)
    /\ IntegrationStatus.status integration
       = if str_truthy (environ "SLACK_BOT_TOKEN")
            || str_truthy (environ "JIRA_API_TOKEN")
               && str_truthy (environ "JIRA_URL")
            || str_truthy (environ "SALESFORCE_CLIENT_ID")
         then "connected" else "disconnected".
Proof.
  unfold Hub._init_external_apis, Hub.external_apis. rewrite setitem_eq.
  eexists. split; [reflexivity|].
  destruct (str_truthy (environ "SLACK_BOT_TOKEN"));
    destruct (str_truthy (environ "JIRA_API_TOKEN")
              && str_truthy (environ "JIRA_URL"));
    destruct (str_truthy (environ "SALESFORCE_CLIENT_ID"));
    reflexivity.
Qed.

(** X22: with the network down, [initialize] from a new hub records the
    SCS and n8n in error and GitHub in error when its token is set, but
    Microsoft 365 and Notion as connected whenever their credentials are
    set, and the external APIs as connected whenever one is configured:
    these three are not probed. Without their settings the four are
    disconnected. *)
Theorem initialize_offline (net : Network) (clock : nat -> datetime) :
  (forall request, exists e, net request = Raise e) ->
  exists self',
    Hub.initialize py_str str_len environ net clock (Hub.init environ)
    = (Ok tt, self')
    /\ map (fun item => (fst item, IntegrationStatus.status (snd item)))
         (Hub.integrations self')
       = [("shared-context-server", "error");
          ("microsoft365",
           if str_truthy (environ "MS365_TENANT_ID")
              && str_truthy (environ "MS365_CLIENT_ID")
           then "connected" else "disconnected");
          ("github",
           if str_truthy (environ "GITHUB_TOKEN")
           then "error" else "disconnected");
          ("notion",
           if str_truthy (environ "NOTION_TOKEN")
              && str_truthy (environ "NOTION_DATABASE_ID")
           then "connected" else "disconnected");
          ("n8n", "error");
          ("external_apis",
           if str_truthy (environ "SLACK_BOT_TOKEN")
              || str_truthy (environ "JIRA_API_TOKEN")
                 && str_truthy (environ "JIRA_URL")
              || str_truthy (environ "SALESFORCE_CLIENT_ID")
           then "connected" else "disconnected")].
Proof.
  intros Hnet.
  unfold Hub.initialize, Hub._initialize_integrations.
  set (s0 := Hub.init environ).
  destruct (connect_scs_offline net (clock 0) (clock 1) s0 Hnet)
    as (i1 & E1 & W1).
  rewrite (se_bind_ok _ _ _ _ _ E1). cbv beta. rewrite ?se_bind_assoc.
  set (s1 := Hub.set_integrations _ s0) in *.
  destruct (init_microsoft365_offline net (clock (2 + 0)) (clock (2 + 1))
              s1 Hnet) as (i2 & E2 & W2).
  rewrite (se_bind_ok _ _ _ _ _ E2). cbv beta. rewrite ?se_bind_assoc.
  set (s2 := Hub.set_integrations _ s1) in *.
  destruct (init_github_enterprise_offline net (clock (2 + 2))
              (clock (2 + 3)) s2 Hnet) as (i3 & E3 & W3).
  rewrite (se_bind_ok _ _ _ _ _ E3). cbv beta. rewrite ?se_bind_assoc.
  set (s3 := Hub.set_integrations _ s2) in *.
  destruct (init_notion_offline net (clock (2 + 4)) (clock (2 + 5)) s3
              Hnet) as (i4 & E4 & W4).
  rewrite (se_bind_ok _ _ _ _ _ E4). cbv beta. rewrite ?se_bind_assoc.
  set (s4 := Hub.set_integrations _ s3) in *.
  destruct (init_n8n_offline net (clock (2 + 6)) (clock (2 + 7)) s4 Hnet)
    as (i5 & E5 & W5).
  rewrite (se_bind_ok _ _ _ _ _ E5). cbv beta. rewrite ?se_bind_assoc.
  set (s5 := Hub.set_integrations _ s4) in *.
  destruct (init_external_apis_status (clock (2 + 8)) s5)
    as (i6 & E6 & W6).
  rewrite (se_bind_ok _ _ _ _ _ E6). cbv beta. rewrite ?se_bind_assoc.
  eexists. split; [reflexivity|].
  subst s5 s4 s3 s2 s1 s0. cbn.
  now rewrite W1, W2, W3, W4, W5, W6.
Qed.

End HubProperties.

(** ** The hub at concrete inputs *)

Example workflow_fails_without_github :
  Hub.process_email_to_github_workflow epoch_isoformat repr_unknown
    epoch_strftime repr_unknown hash_zero unbound_local_message no_environ
    issue_created 0%Q 0%Q [("subject", JString "Help")]
    (hub_with "disconnected")
  = (Ok
       (JObject
          [("success", JBool false);
           ("error",
            JString
              "cannot access local variable 'github_issue' where it is not associated with a value")]),
     hub_with "disconnected").
Proof. reflexivity. Qed.

Example workflow_succeeds_with_both :
  fst
    (Hub.process_email_to_github_workflow epoch_isoformat repr_unknown
       epoch_strftime repr_unknown hash_zero unbound_local_message
       no_environ issue_created 0%Q 0%Q [("subject", JString "Help")]
       (hub_with "connected"))
  = Ok
      (JObject
         [("success", JBool true);
          ("workflow", JString "email_to_github_to_notion");
          ("github_issue", created_issue);
          ("notion_page",
           JObject
             [("title", JString "Email Request: Help");
              ("url", JString "https://notion.so/entry/?");
              ("properties",
               JObject
                 [("Source", JString "Email Integration");
                  ("Status", JString "Documented");
                  ("GitHub Issue",
                   JString "https://github.com/o/r/issues/1");
                  ("Created", JString "1970-01-01T00:00:00+00:00")])])]).
Proof. reflexivity. Qed.

Example workflow_succeeds_without_issue :
  PyDict.get "success"
    (match
       fst
         (Hub.process_email_to_github_workflow epoch_isoformat repr_unknown
            epoch_strftime repr_unknown hash_zero unbound_local_message
            no_environ offline 0%Q 0%Q [] (hub_with "connected"))
     with
     | Ok (JObject result) => result
     | _ => []
     end)
  = Some (JBool true).
Proof. reflexivity. Qed.

Example offline_hub_initializes :
  map (fun item => (fst item, IntegrationStatus.status (snd item)))
    (Hub.integrations
       (snd
          (Hub.initialize repr_unknown String.length no_environ offline
             (fun _ => 0%Q) (Hub.init no_environ))))
  = [("shared-context-server", "error");
     ("microsoft365", "disconnected");
     ("github", "disconnected");
     ("notion", "disconnected");
     ("n8n", "error");
     ("external_apis", "disconnected")].
Proof. reflexivity. Qed.

(** [get_integration_metrics_entries] on a registry of two services. *)
Lemma get_integration_metrics_entries_witness :
  PyDict.wf (integration_metrics github_down)
  /\ get_integration_metrics epoch_isoformat github_down
     = (json_response
          (JObject
             (map
                (fun item =>
                   (fst item,
                    JObject (metric_dict epoch_isoformat (snd item))))
                (integration_metrics github_down)))
          200%Z,
        github_down).
Proof.
  assert (Hwf : PyDict.wf (integration_metrics github_down)).
  { unfold PyDict.wf. cbn. repeat constructor; cbn; intuition discriminate. }
  split; [exact Hwf|].
  exact (get_integration_metrics_entries epoch_isoformat github_down Hwf).
Defined.

(** [first_turn_response_time] with every draw one half. *)
Lemma first_turn_response_time_witness :
  (forall k : nat, unit_draw ((fun _ => 1 # 2) k))
  /\ Forall
       (fun s =>
          exists m,
            PyDict.get s
              (integration_metrics
                 (run epoch_isoformat repr_unknown
                    [CallInitializeMetrics (fun _ => 0%Q);
                     CallSimulateMetrics (fun _ => 1 # 2)]
                    init))
            = Some m
            /\ (IntegrationMetric.response_time m == 10)%Q)
       default_integrations.
Proof.
  assert (H : forall k : nat, unit_draw ((fun _ => 1 # 2) k))
    by (intros k; split; vm_compute; congruence).
  split; [exact H|].
  exact (first_turn_response_time epoch_isoformat repr_unknown
           (fun _ => 0%Q) (fun _ => 1 # 2) H).
Defined.

(** [hub_get_system_status_entries] on a hub with github and notion. *)
Lemma hub_get_system_status_entries_witness :
  PyDict.wf (Hub.integrations (hub_with "error"))
  /\ Hub.connected_count (Hub.integrations (hub_with "error"))
     <= PyDict.len (Hub.integrations (hub_with "error")).
Proof.
  assert (Hwf : PyDict.wf (Hub.integrations (hub_with "error"))).
  { unfold PyDict.wf. cbn. repeat constructor; cbn; intuition discriminate. }
  split; [exact Hwf|].
  exact (proj2 (hub_get_system_status_entries epoch_isoformat 0%Q
                  (hub_with "error") Hwf)).
Defined.

(** [process_email_outcome] on a hub whose github entry is disconnected. *)
Lemma process_email_outcome_witness :
  PyDict.get "github" (Hub.integrations (hub_with "disconnected"))
  = Some
      (IntegrationStatus.make "GitHub Enterprise" "disconnected" 0%Q
         (JObject []))
  /\ PyDict.get "notion" (Hub.integrations (hub_with "disconnected"))
     = Some (IntegrationStatus.make "Notion" "connected" 0%Q (JObject []))
  /\ exists result,
       Hub.process_email_to_github_workflow epoch_isoformat repr_unknown
         epoch_strftime repr_unknown hash_zero unbound_local_message
         no_environ issue_created 0%Q 0%Q [("subject", JString "Help")]
         (hub_with "disconnected")
       = (Ok (JObject result), hub_with "disconnected")
       /\ result
          = [("success", JBool false);
             ("error", JString (unbound_local_message "github_issue"))].
Proof.
  split; [reflexivity|]. split; [reflexivity|].
  destruct (process_email_outcome epoch_isoformat repr_unknown
              epoch_strftime repr_unknown hash_zero unbound_local_message
              no_environ issue_created 0%Q 0%Q [("subject", JString "Help")]
              (hub_with "disconnected") _ _ eq_refl eq_refl)
    as (result & E & _ & H & _).
  exists result. split; [exact E|]. apply H. discriminate.
Defined.

(** [initialize_offline] on the network that is down, without any
    setting. *)
Lemma initialize_offline_witness :
  (forall request, exists e, offline request = Raise e)
  /\ exists self',
       Hub.initialize repr_unknown String.length no_environ offline
         (fun _ => 0%Q) (Hub.init no_environ)
       = (Ok tt, self')
       /\ map (fun item => (fst item, IntegrationStatus.status (snd item)))
            (Hub.integrations self')
          = [("shared-context-server", "error");
             ("microsoft365", "disconnected");
             ("github", "disconnected");
             ("notion", "disconnected");
             ("n8n", "error");
             ("external_apis", "disconnected")].
Proof.
  assert (H : forall request, exists e, offline request = Raise e)
    by (intros request; eexists; reflexivity).
  split; [exact H|].
  exact (initialize_offline repr_unknown String.length no_environ offline
           (fun _ => 0%Q) H).
Defined.
